(** * ksp-klient: a shallow embedding of [ksp-klient.py]

    The client is a sequential script: every command builds requests for the
    KSP API, prints text and may stop the process.  The embedding keeps that
    shape.  Observable effects (printed lines, HTTP requests, solver runs) are
    recorded as a list of events; the remote server, the file holding the
    token, the clock and the contestant's solver are an explicit [World];
    exceptions and [sys.exit] are outcomes of a small error monad. *)

From stdpp Require Import base option list strings gmap pretty.
From Stdlib Require Import ZArith Ascii Lia.

Local Open Scope Z_scope.

(** ** Python values that cross the program *)

(** Result of [json.loads]: the decoded body of a response. Numbers are kept
    to integers, which is all the client ever inspects. *)
#[warnings="-register-all"]
Inductive json : Type :=
  | JNull
  | JBool (b : bool)
  | JNum (n : Z)
  | JStr (s : string)
  | JArr (l : list json)
  | JObj (o : gmap string json).

(** Values of a query-string dictionary: [task] is a [str], [subtask] an
    [int]. *)
Inductive pval : Type :=
  | PStr (s : string)
  | PInt (n : Z).

(** [AnyStr]: the [content] handed to [submit] is a [str] or [bytes].  A Rocq
    [string] is a sequence of bytes, a [str] being held by its UTF-8
    encoding. *)
Inductive anystr : Type :=
  | Str (s : string)
  | Bytes (b : string).

(** The [data] argument of the HTTP call: a dict of form fields or raw
    bytes. *)
Inductive payload : Type :=
  | DataDict (d : gmap string string)
  | DataBytes (b : string).

(** The exceptions that can leave a command. *)
Inductive exn : Type :=
  | SystemExit (code : Z)
  | KeyError (key : string)
  | TypeError
  | AttributeError
  | ValueError
  | JSONDecodeError
  | CalledProcessError
  | FileNotFoundError
  | PermissionError.

Inductive outcome (A : Type) : Type :=
  | Ok (a : A)
  | Raise (e : exn).
Arguments Ok {A} a.
Arguments Raise {A} e.

(** ** [class APIOperation(enum.Enum)] *)

Inductive APIOperation : Type := LIST | STATUS | GET_TEST | SUBMIT | GENERATE.

Inductive HTTPMethod : Type := GET | POST.

#[global] Instance APIOperation_eq_dec : EqDecision APIOperation.
Proof. solve_decision. Defined.

#[global] Instance HTTPMethod_eq_dec : EqDecision HTTPMethod.
Proof. solve_decision. Defined.

(** ** Requests, responses, events *)

Record Request : Type := mkRequest {
  req_method : HTTPMethod;
  req_url : string;
  req_headers : gmap string string;
  req_params : gmap string pval;
  req_data : payload
}.

(** What the client reads of a [requests.Response].  [resp_headers] is the
    store of the case-insensitive header dictionary, keyed by the lower-cased
    header name; [resp_json] is what [response.json()] decodes, [None] when
    the body is not JSON. *)
Record Response : Type := mkResponse {
  status_code : Z;
  resp_headers : gmap string string;
  resp_text : string;
  resp_json : option json
}.

(** What the process does that can be seen from outside: a printed line, an
    HTTP exchange (the request and the server's answer, [None] for a
    connection error), a run of the solver (its arguments, standard input and
    what came of it: the captured output or the exception raised), the help
    text of the parser. *)
Inductive event : Type :=
  | EvPrint (line : string)
  | EvRequest (operation : APIOperation) (request : Request) (answer : option Response)
  | EvSubprocess (args : list string) (input : string) (output : outcome string)
  | EvHelp.

(** ** Strings *)

Definition lower_ascii (c : ascii) : ascii :=
  let n := nat_of_ascii c in
  if (Nat.leb 65 n && Nat.leb n 90)%bool then ascii_of_nat (n + 32) else c.

Fixpoint lower (s : string) : string :=
  match s with
  | EmptyString => EmptyString
  | String c s' => String (lower_ascii c) (lower s')
  end.

(** [str.startswith] *)
Definition startswith (s p : string) : bool := String.prefix p s.

(** [len] of a [str]: the number of code points, that is of bytes that are
    not UTF-8 continuation bytes. *)
Fixpoint str_len (s : string) : nat :=
  match s with
  | EmptyString => O
  | String c s' =>
      let n := nat_of_ascii c in
      if (Nat.leb 128 n && Nat.ltb n 192)%bool then str_len s' else S (str_len s')
  end.

Fixpoint spaces (n : nat) : string :=
  match n with
  | O => EmptyString
  | S n' => String " " (spaces n')
  end.

(** [f'{s:<w}'] on a [str]. *)
Definition ljust (w : nat) (s : string) : string := s +:+ spaces (w - str_len s).

(** [sep.join(l)] *)
Fixpoint join (sep : string) (l : list string) : string :=
  match l with
  | [] => ""
  | [x] => x
  | x :: l' => x +:+ sep +:+ join sep l'
  end.

(** [str.encode('utf-8')]: the bytes already are the encoding. *)
Definition encode (s : string) : string := s.

(** [str(n)] on an [int]. *)
Definition str_of_Z (n : Z) : string := pretty n.

Example str_len_header : str_len "Délka platnosti" = 15%nat.
Proof. reflexivity. Qed.

Example ljust_test : ljust 5 "Test" = "Test ".
Proof. reflexivity. Qed.

Example str_of_Z_neg : str_of_Z (-12) = "-12".
Proof. reflexivity. Qed.

(** ** Outcomes and the effect monad *)

#[global] Instance outcome_ret : MRet outcome := fun _ a => Ok a.

#[global] Instance outcome_bind : MBind outcome := fun _ _ f m =>
  match m with
  | Ok a => f a
  | Raise e => Raise e
  end.

(** A computation reads the events that happened so far (the world may answer
    according to them) and returns its outcome with the events it added. *)
Definition M (A : Type) : Type := list event -> outcome A * list event.

#[global] Instance M_ret : MRet M := fun _ a _ => (Ok a, []).

#[global] Instance M_bind : MBind M := fun _ _ f m past =>
  match m past with
  | (Ok a, es) => let '(r, es') := f a (past ++ es) in (r, es ++ es')
  | (Raise e, es) => (Raise e, es)
  end.

Definition lift {A : Type} (o : outcome A) : M A := fun _ => (o, []).

Definition raise {A : Type} (e : exn) : M A := lift (Raise e).

Definition emit (e : event) : M unit := fun _ => (Ok tt, [e]).

(** [print(line)] *)
Definition print (line : string) : M unit := emit (EvPrint line).

(** [sys.exit(code)] *)
Definition sys_exit {A : Type} (code : Z) : M A := raise (SystemExit code).

(** [for x in l: body(x)] *)
Fixpoint for_each {A : Type} (l : list A) (body : A -> M unit) : M unit :=
  match l with
  | [] => mret tt
  | x :: l' => body x ;; for_each l' body
  end.

(** Exit status of the process for the outcome of the script: an uncaught
    exception ends the interpreter with status 1. *)
Definition exit_status {A : Type} (o : outcome A) : Z :=
  match o with
  | Ok _ => 0
  | Raise (SystemExit code) => code
  | Raise _ => 1
  end.

(** ** Operations on decoded JSON *)

(** [v[key]] *)
Definition getitem (v : json) (key : string) : outcome json :=
  match v with
  | JObj o =>
      match o !! key with
      | Some x => Ok x
      | None => Raise (KeyError key)
      end
  | _ => Raise TypeError
  end.

(** [v[key] if key in v else ''] on a value that earlier lookups have shown
    to be a dictionary. *)
Definition getitem_or_empty (v : json) (key : string) : outcome json :=
  match v with
  | JObj o => Ok (default (JStr "") (o !! key))
  | _ => Raise TypeError
  end.

(** Truth value of a decoded value in an [if]. *)
Definition truthy (v : json) : bool :=
  match v with
  | JNull => false
  | JBool b => b
  | JNum n => negb (n =? 0)
  | JStr s => negb (String.eqb s "")
  | JArr l => negb (bool_decide (l = []))
  | JObj o => negb (bool_decide (o = ∅))
  end.

(** The code points of a [str], each as a one-character [str]. *)
Fixpoint chars_from (cur : string) (s : string) : list string :=
  match s with
  | EmptyString => [cur]
  | String c s' =>
      let n := nat_of_ascii c in
      if (Nat.leb 128 n && Nat.ltb n 192)%bool
      then chars_from (cur +:+ String c EmptyString) s'
      else cur :: chars_from (String c EmptyString) s'
  end.

Definition chars (s : string) : list string :=
  match s with
  | EmptyString => []
  | String c s' => chars_from (String c EmptyString) s'
  end.

(** The elements a [for] loop visits: the items of a list, the keys of a
    dictionary, the characters of a string. *)
Definition iterate (v : json) : outcome (list json) :=
  match v with
  | JArr l => Ok l
  | JObj o => Ok (JStr <$> (map_to_list o).*1)
  | JStr s => Ok (JStr <$> chars s)
  | _ => Raise TypeError
  end.

(** [len(v)] *)
Definition py_len (v : json) : outcome nat :=
  match v with
  | JArr l => Ok (length l)
  | JObj o => Ok (size o)
  | JStr s => Ok (str_len s)
  | _ => Raise TypeError
  end.

(** [range(1, n+1)] *)
Definition range1 (n : nat) : list Z := Z.of_nat <$> seq 1 n.

(** [format(v, '<w')], as in [f'{v:<5}']: strings and integers are padded on
    the right, a boolean is formatted as the integer it is, and [None], lists
    and dictionaries reject a format specification. *)
Definition format_left (w : nat) (v : json) : outcome string :=
  match v with
  | JStr s => Ok (ljust w s)
  | JNum n => Ok (ljust w (str_of_Z n))
  | JBool b => Ok (ljust w (if b then "1" else "0"))
  | _ => Raise TypeError
  end.

Example chars_test : chars "dnů" = ["d"; "n"; "ů"].
Proof. reflexivity. Qed.

(** ** The environment *)

(** [datetime.fromisoformat]: the string is rejected, or it denotes an
    instant, given in microseconds since the epoch, with or without a UTC
    offset. *)
Inductive parsed : Type :=
  | Malformed
  | Naive (us : Z)
  | Aware (us : Z).

(** Library functions the client calls and this development does not
    unfold. *)
Record Runtime : Type := mkRuntime {
  fromisoformat : string -> parsed;
  (** [repr] of a list or dictionary, as [str] shows them *)
  repr_container : json -> string;
  (** [json.dumps(v, indent=4, ensure_ascii=False)] *)
  json_dumps : json -> string
}.

(** The world outside the process. Answers may depend on what has happened so
    far. *)
Record World : Type := mkWorld {
  (** the server's answer to a request; [None] is a connection error *)
  http_send : list event -> Request -> option Response;
  (** [subprocess.check_output(args, input=...)]: the captured standard
      output, or the exception the call raises: [CalledProcessError] when the
      solver ends with a non-zero status, [FileNotFoundError] or
      [PermissionError] when it cannot be started *)
  check_output : list event -> list string -> string -> outcome string;
  (** [os.path.expanduser("~")] *)
  home : string;
  (** first line of the file at a path, stripped; [None] when the path does
      not exist *)
  token_file : string -> option string;
  (** [datetime.now()], in microseconds since the epoch *)
  clock : list event -> Z
}.

(** [str(v)], as an f-string renders a decoded value. *)
Definition py_str (rt : Runtime) (v : json) : string :=
  match v with
  | JNull => "None"
  | JBool true => "True"
  | JBool false => "False"
  | JNum n => str_of_Z n
  | JStr s => s
  | _ => repr_container rt v
  end.

(** ** [APIOperation.getURL] and [APIOperation.getHTTPMethod] *)

(** [f"{self}"] for a member of the enumeration. *)
Definition operation_str (self : APIOperation) : string :=
  match self with
  | LIST => "APIOperation.LIST"
  | STATUS => "APIOperation.STATUS"
  | GET_TEST => "APIOperation.GET_TEST"
  | SUBMIT => "APIOperation.SUBMIT"
  | GENERATE => "APIOperation.GENERATE"
  end.

Definition urls : list (APIOperation * string) :=
  [ (LIST, "tasks/list");
    (STATUS, "tasks/status");
    (GET_TEST, "tasks/input");
    (SUBMIT, "tasks/submit");
    (GENERATE, "tasks/generate") ].

(** [urls[self]] when [self in urls] *)
Fixpoint assoc {A : Type} (self : APIOperation) (d : list (APIOperation * A)) : option A :=
  match d with
  | [] => None
  | (k, v) :: d' => if decide (self = k) then Some v else assoc self d'
  end.

Definition getURL (self : APIOperation) : M string :=
  match assoc self urls with
  | Some url => mret url
  | None =>
      print ("Operace " +:+ operation_str self +:+ " nenalezena") ;;
      sys_exit 1
  end.

Definition getHTTPMethod (self : APIOperation) : M HTTPMethod :=
  if bool_decide (self ∈ [LIST; STATUS]) then mret GET
  else if bool_decide (self ∈ [GET_TEST; SUBMIT; GENERATE]) then mret POST
  else
    print ("Operace " +:+ operation_str self +:+ " nenalezena") ;;
    sys_exit 1.

(** ** [class KSPApiService] *)

Record KSPApiService : Type := mkService {
  api_url : string;
  token_path : string;
  headers : gmap string string;
  training_ground : bool;
  verbose : bool
}.

Definition default_api_url : string := "https://ksp.mff.cuni.cz/api/".

(** [os.path.join(a, b)] for a relative [b]. *)
Definition path_join (a b : string) : string :=
  if String.eqb a "" then b
  else if String.eqb (String.substring (String.length a - 1) 1 a) "/" then a +:+ b
  else a +:+ "/" +:+ b.

(** Calling a [str]: it is not callable. *)
Definition call_str (s : string) : outcome string := Raise TypeError.

Section Client.

Context (rt : Runtime) (w : World).

Definition default_token_path : string :=
  path_join (path_join (home w) ".config") "ksp-api-token".

(** [fileExists(name)] *)
Definition fileExists (name : string) : M unit :=
  match token_file w name with
  | Some _ => mret tt
  | None =>
      print ("Soubor " +:+ name +:+ " neexistuje") ;;
      sys_exit 1
  end.

(** [KSPApiService.__init__] *)
Definition KSPApiService_init (api_url_arg token_path_arg : option string)
    (training_ground_arg verbose_arg : bool) : M KSPApiService :=
  let self_api_url := default default_api_url api_url_arg in
  let self_token_path := default default_token_path token_path_arg in
  fileExists self_token_path ;;
  let token := default "" (token_file w self_token_path) in
  mret {| api_url := self_api_url;
          token_path := self_token_path;
          headers := {[ "Authorization" := "Bearer " +:+ token ]};
          training_ground := training_ground_arg;
          verbose := verbose_arg |}.

(** [http_method(url, headers=..., params=..., data=...)]: the request leaves
    the process and the world answers. *)
Definition send (operation : APIOperation) (request : Request) : M (option Response) :=
  fun past =>
    let answer := http_send w past request in
    (Ok answer, [EvRequest operation request answer]).

(** [response.headers[name]] *)
Definition header (response : Response) (name : string) : outcome string :=
  match resp_headers response !! lower name with
  | Some v => Ok v
  | None => Raise (KeyError name)
  end.

(** [response.json()] *)
Definition response_json (response : Response) : outcome json :=
  match resp_json response with
  | Some j => Ok j
  | None => Raise JSONDecodeError
  end.

(** The body of [if response.status_code != 200:] in [callApi]. *)
Definition reject {A : Type} (self : KSPApiService) (response : Response) : M A :=
  content_type ← lift (header response "content-type") ;
  (if String.eqb content_type "application/json" then
     body ← lift (response_json response) ;
     msg ← lift (getitem body "errorMsg") ;
     print ("Stránka KSP nepřijala tvůj požadavek: " +:+ py_str rt msg)
   else
     print "Stránka KSP odpověděla chybou, která nemá json odpověď!" ;;
     if verbose self then
       shown ← lift (call_str (resp_text response)) ;
       print shown
     else mret tt) ;;
  sys_exit 1.

(** The body of [except requests.exceptions.ConnectionError:]. *)
Definition unreachable {A : Type} : M A :=
  print "Klient se nedokázal připojit ke stránkám KSP" ;;
  print "Jsi připojen k internetu?" ;;
  sys_exit 1.

(** [KSPApiService.callApi] *)
Definition callApi (self : KSPApiService) (operation : APIOperation)
    (extra_headers : gmap string string) (extra_params : gmap string pval)
    (data : payload) : M Response :=
  let hdrs := extra_headers ∪ headers self in
  path ← getURL operation ;
  let url := api_url self +:+ path in
  http_method ← getHTTPMethod operation ;
  (if verbose self then print ("Posílám požadavek na: " +:+ url) else mret tt) ;;
  answer ← send operation (mkRequest http_method url hdrs extra_params data) ;
  match answer with
  | None => unreachable
  | Some response =>
      if bool_decide (status_code response ≠ 200) then reject self response
      else mret response
  end.

(** The arguments [callApi] takes when the caller leaves them out. *)
Definition no_headers : gmap string string := ∅.
Definition no_params : gmap string pval := ∅.
Definition no_data : payload := DataDict ∅.

(** [KSPApiService.getList] *)
Definition getList (self : KSPApiService) : M Response :=
  let param : gmap string pval := ∅ in
  let param := if training_ground self then <["set" := PStr "cviciste"]> param else param in
  callApi self LIST no_headers param no_data.

(** [KSPApiService.getStatus] *)
Definition getStatus (self : KSPApiService) (task : string) : M Response :=
  callApi self STATUS no_headers {[ "task" := PStr task ]} no_data.

(** [KSPApiService.getTest] *)
Definition getTest (self : KSPApiService) (task : string) (subtask : Z)
    (generate : bool) : M Response :=
  callApi self GET_TEST no_headers
    (<["task" := PStr task]>
       (<["subtask" := PInt subtask]>
          {[ "generate" := PStr (if generate then "true" else "false") ]}))
    no_data.

(** [KSPApiService.submit] *)
Definition submit (self : KSPApiService) (task : string) (subtask : Z)
    (content : anystr) : M Response :=
  let content :=
    match content with
    | Str s => Bytes (encode s)
    | Bytes b => Bytes b
    end in
  callApi self SUBMIT {[ "Content-Type" := "text/plain" ]}
    (<["task" := PStr task]> {[ "subtask" := PInt subtask ]})
    no_data.

(** [KSPApiService.generate] *)
Definition generate (self : KSPApiService) (task : string) (subtask : Z) : M Response :=
  callApi self GENERATE no_headers
    (<["task" := PStr task]> {[ "subtask" := PInt subtask ]})
    no_data.

End Client.

(** ** Durations

    [timedelta.total_seconds()] is a float, a whole number of microseconds
    divided by 10^6.  Such a number is held here as its count of millionths,
    and [divmod] and [round] are computed on it exactly.  The float
    computation of the source agrees with this on the whole quotients (days,
    hours, minutes) and on the rounded seconds as long as the time left is
    below about 2^34 seconds (some 540 years), where a float still resolves
    the microsecond; the fractional seconds themselves can differ from the
    exact ones in their last digits (the remainder of a negative time is
    rounded), so nothing below depends on more than their rounded value and
    their range. *)

Definition million : Z := 1000000.

(** The float with the integer value [n]. *)
Definition of_int (n : Z) : Z := n * million.

(** [divmod(x, d)] of a float [x] by the integer [d]: the floored quotient
    and the remainder, which has the sign of [d]. *)
Definition divmod (x d : Z) : Z * Z := (x / (d * million), x mod (d * million)).

(** [round(x)]: to the nearest integer, a tie going to the even one. *)
Definition round (x : Z) : Z :=
  let q := x / million in
  let r := x mod million in
  if r <? 500000 then q
  else if 500000 <? r then q + 1
  else if Z.even q then q else q + 1.

(** [czechTime(value, first_form, second_form, third_form)] *)
Definition czechTime (value : Z) (first_form second_form third_form : string) : string :=
  let value := round value in
  if value =? 0 then ""
  else if value =? 1 then str_of_Z value +:+ " " +:+ first_form
  else if value <? 5 then str_of_Z value +:+ " " +:+ second_form
  else str_of_Z value +:+ " " +:+ third_form.

(** The loop of [formatTime] that keeps the non-empty strings. *)
Fixpoint keep_nonempty (l : list string) : list string :=
  match l with
  | [] => []
  | x :: l' => if negb (String.eqb x "") then x :: keep_nonempty l' else keep_nonempty l'
  end.

(** [ret[:-1]] and [ret[-1]] of a list that is not empty. *)
Definition init_of (l : list string) : list string := take (List.length l - 1) l.
Definition last_of (l : list string) : string := default "" (last l).

(** The last lines of [formatTime]: how the kept strings are joined. *)
Definition join_parts (ret : list string) : string :=
  if (List.length ret <? 3)%nat then join " a " ret
  else join ", " (init_of ret) +:+ " a " +:+ last_of ret.

(** The four components [formatTime] computes from the seconds left:
    whole days, hours and minutes, and the (fractional) seconds. *)
Definition components (total_seconds : Z) : Z * Z * Z * Z :=
  let '(days, hours) := divmod total_seconds (60 * 60 * 24) in
  let '(hours, minutes) := divmod hours (60 * 60) in
  let '(minutes, seconds) := divmod minutes 60 in
  (days, hours, minutes, seconds).

(** The strings of the four components, before the empty ones are dropped. *)
Definition component_strs (total_seconds : Z) : list string :=
  let '(days, hours, minutes, seconds) := components total_seconds in
  let day_str := czechTime (of_int days) "den" "dny" "dnů" in
  let hour_str := czechTime (of_int hours) "hodina" "hodiny" "hodin" in
  let minute_str := czechTime (of_int minutes) "minuta" "minuty" "minut" in
  let second_str := czechTime seconds "sekunda" "sekundy" "sekund" in
  [day_str; hour_str; minute_str; second_str].

(** [formatTime] once the time left is known. *)
Definition format_delta (total_seconds : Z) : string :=
  join_parts (keep_nonempty (component_strs total_seconds)).

(** [s.startswith(p)] on a decoded value: only a [str] has the method. *)
Definition json_startswith (v : json) (p : string) : outcome bool :=
  match v with
  | JStr s => Ok (startswith s p)
  | _ => Raise AttributeError
  end.

(** [datetime.fromisoformat(v) - datetime.now().astimezone()], in
    microseconds: a malformed string raises [ValueError], an instant without
    offset cannot be subtracted from one with an offset. *)
Definition time_left (rt : Runtime) (now : Z) (v : json) : outcome Z :=
  match v with
  | JStr s =>
      match fromisoformat rt s with
      | Malformed => Raise ValueError
      | Naive _ => Raise TypeError
      | Aware t => Ok (t - now)
      end
  | _ => Raise TypeError
  end.

(** [formatTime(subtask)], with the reading of the clock made explicit. *)
Definition formatTime (rt : Runtime) (now : Z) (subtask : json) : outcome string :=
  generated ← getitem subtask "input_generated" ;
  if truthy generated then
    valid_until ← getitem subtask "input_valid_until" ;
    forever ← json_startswith valid_until "9999" ;
    if forever : bool then Ok "stále"
    else
      timedelta ← time_left rt now valid_until ;
      Ok (format_delta timedelta)
  else Ok "Nevygenerováno".

Example czechTime_one : czechTime (of_int 1) "den" "dny" "dnů" = "1 den".
Proof. reflexivity. Qed.

Example round_ties : (round 500000, round 1500000, round 2500000, round (-500000), round (-1500000))
                     = (0, 2, 2, 0, -2).
Proof. reflexivity. Qed.

Example format_delta_90 : format_delta (of_int 90) = "1 minuta a 30 sekund".
Proof. reflexivity. Qed.

Example format_delta_long : format_delta (of_int (2 * 86400 + 3600 + 5 * 60 + 7))
                            = "2 dny, 1 hodina, 5 minut a 7 sekund".
Proof. reflexivity. Qed.

Example format_delta_past : format_delta (of_int (-10))
                            = "-1 dny, 23 hodin, 59 minut a 50 sekund".
Proof. reflexivity. Qed.

(** ** Command handlers *)

(** What [parser.parse_args()] returns.  Each subcommand sets the attributes
    it declares; [file] stands for the bytes [arguments.file.read()] gives. *)
Record Namespace : Type := mkNamespace {
  arg_verbose : bool;
  arg_cviciste : bool;
  arg_api_url : option string;
  operation_name : option string;
  arg_task : string;
  arg_subtask : Z;
  arg_file : string;
  sol_args : list string
}.

(** [len(status.json()["subtasks"])] *)
Definition number_of_subtasks (status : Response) : outcome nat :=
  response_json status ≫= fun j => getitem j "subtasks" ≫= py_len.

Section Handlers.

Context (rt : Runtime) (w : World).

(** [printNiceJson] *)
Definition printNiceJson (json_text : json) : M unit :=
  print (json_dumps rt json_text).

(** [formatTime(subtask)] at the moment it is called. *)
Definition formatTime_now (subtask : json) : M string :=
  fun past => (formatTime rt (clock w past) subtask, []).

Definition table_header : string :=
  ljust 5 "Test" +:+ "| " +:+ ljust 32 "Délka platnosti" +:+ "| " +:+ ljust 8 "Body"
  +:+ "| " +:+ "Výsledek".

Definition dashes : string := "------------------------------------------------------------".

(** One row of the table: the body of the loop of [printTableStatus]. *)
Definition printTableRow (subtask : json) : M unit :=
  p ← lift (getitem subtask "points") ;
  mp ← lift (getitem subtask "max_points") ;
  let points := py_str rt p +:+ "/" +:+ py_str rt mp in
  verdict ← lift (getitem_or_empty subtask "verdict") ;
  id ← lift (getitem subtask "id") ;
  id_col ← lift (format_left 5 id) ;
  time ← formatTime_now subtask ;
  print (id_col +:+ "| " +:+ ljust 32 time +:+ "| " +:+ ljust 8 points +:+ "| "
         +:+ py_str rt verdict).

(** [printTableStatus] *)
Definition printTableStatus (json_text : json) : M unit :=
  name ← lift (getitem json_text "name") ;
  print ("Název úlohy: " +:+ py_str rt name) ;;
  p ← lift (getitem json_text "points") ;
  mp ← lift (getitem json_text "max_points") ;
  print ("Získané body: " +:+ py_str rt p +:+ "/" +:+ py_str rt mp) ;;
  print table_header ;;
  print dashes ;;
  subtasks ← lift (getitem json_text "subtasks" ≫= iterate) ;
  for_each subtasks printTableRow.

(** [subprocess.check_output(args, input=input)] *)
Definition run_solver (args : list string) (input : string) : M string :=
  fun past =>
    let output := check_output w past args input in
    (output, [EvSubprocess args input output]).

Definition handleList (kspApiService : KSPApiService) (arguments : Namespace) : M unit :=
  r ← getList rt w kspApiService ;
  j ← lift (response_json r) ;
  printNiceJson j.

Definition handleStatus (kspApiService : KSPApiService) (arguments : Namespace) : M unit :=
  r ← getStatus rt w kspApiService (arg_task arguments) ;
  j ← lift (response_json r) ;
  printTableStatus j.

Definition handleSubmit (kspApiService : KSPApiService) (arguments : Namespace) : M unit :=
  let user_output := arg_file arguments in
  r ← submit rt w kspApiService (arg_task arguments) (arg_subtask arguments)
        (Bytes user_output) ;
  j ← lift (response_json r) ;
  printNiceJson j.

Definition handleGenerate (kspApiService : KSPApiService) (arguments : Namespace) : M unit :=
  r ← getTest rt w kspApiService (arg_task arguments) (arg_subtask arguments) true ;
  print (resp_text r).

(** The line [handleRun] prints for a subtask. *)
Definition verdict_line (subtask : Z) (resp : json) : outcome string :=
  verdict ← getitem resp "verdict" ;
  points ← getitem resp "points" ;
  max_points ← getitem resp "max_points" ;
  Ok ("Podúloha " +:+ str_of_Z subtask +:+ ": " +:+ py_str rt verdict +:+ " ("
      +:+ py_str rt points +:+ "/" +:+ py_str rt max_points +:+ "b)").

(** The body of the loop of [handleRun]. *)
Definition run_subtask (kspApiService : KSPApiService) (arguments : Namespace)
    (task : string) (subtask : Z) : M unit :=
  input_response ← getTest rt w kspApiService task subtask true ;
  let _input := resp_text input_response in
  output ← run_solver (sol_args arguments) (encode _input) ;
  response ← submit rt w kspApiService task subtask (Bytes output) ;
  resp ← lift (response_json response) ;
  line ← lift (verdict_line subtask resp) ;
  print line.

Definition handleRun (kspApiService : KSPApiService) (arguments : Namespace) : M unit :=
  let task := arg_task arguments in
  status ← getStatus rt w kspApiService task ;
  numberSubtasks ← lift (number_of_subtasks status) ;
  for_each (range1 numberSubtasks) (run_subtask kspApiService arguments task).

(** The dictionary [operations]. *)
Definition operations : list (string * (KSPApiService -> Namespace -> M unit)) :=
  [ ("list", handleList);
    ("status", handleStatus);
    ("submit", handleSubmit);
    ("generate", handleGenerate);
    ("run", handleRun) ].

Fixpoint find_operation (name : string)
    (d : list (string * (KSPApiService -> Namespace -> M unit)))
    : option (KSPApiService -> Namespace -> M unit) :=
  match d with
  | [] => None
  | (k, h) :: d' => if String.eqb name k then Some h else find_operation name d'
  end.

(** The script from [parser.parse_args()] on. *)
Definition main (arguments : Namespace) : M unit :=
  kspApiService ← KSPApiService_init w (arg_api_url arguments) None
                     (arg_cviciste arguments) (arg_verbose arguments) ;
  match operation_name arguments with
  | None => emit EvHelp
  | Some name =>
      match find_operation name operations with
      | Some handler => handler kspApiService arguments
      | None => raise (KeyError name)
      end
  end.

End Handlers.

(** * Properties *)

(** Unfolds the operations of the monad, leaving the handlers folded. *)
Ltac run_M :=
  cbv beta iota delta [mbind mret M_bind M_ret outcome_bind outcome_ret
                       lift raise emit print sys_exit unreachable send].

(** ** The lookup tables of [APIOperation] *)

Definition path_of (operation : APIOperation) : string :=
  match operation with
  | LIST => "tasks/list"
  | STATUS => "tasks/status"
  | GET_TEST => "tasks/input"
  | SUBMIT => "tasks/submit"
  | GENERATE => "tasks/generate"
  end.

Definition method_of (operation : APIOperation) : HTTPMethod :=
  match operation with
  | LIST | STATUS => GET
  | GET_TEST | SUBMIT | GENERATE => POST
  end.

(** Neither property reaches its [else] branch: the tables cover the
    enumeration. *)
Lemma getURL_total operation : getURL operation = mret (path_of operation).
Proof. destruct operation; reflexivity. Qed.

Lemma getHTTPMethod_total operation : getHTTPMethod operation = mret (method_of operation).
Proof. destruct operation; reflexivity. Qed.

Section ClientFacts.

Context (rt : Runtime) (w : World).

(** The request [callApi] builds. *)
Definition request_of (self : KSPApiService) (operation : APIOperation)
    (extra_headers : gmap string string) (extra_params : gmap string pval)
    (data : payload) : Request :=
  mkRequest (method_of operation) (api_url self +:+ path_of operation)
    (extra_headers ∪ headers self) extra_params data.

(** What [callApi] prints before sending, in verbose mode. *)
Definition announce (self : KSPApiService) (operation : APIOperation) : list event :=
  if verbose self
  then [EvPrint ("Posílám požadavek na: " +:+ api_url self +:+ path_of operation)]
  else [].

(** [callApi] announces the request, sends it, and continues according to
    the answer. *)
Lemma callApi_run self operation eh ep data past :
  callApi rt w self operation eh ep data past =
  let request := request_of self operation eh ep data in
  let answer := http_send w (past ++ announce self operation) request in
  let sent := announce self operation ++ [EvRequest operation request answer] in
  match answer with
  | None =>
      (Raise (SystemExit 1),
       sent ++ [EvPrint "Klient se nedokázal připojit ke stránkám KSP";
                EvPrint "Jsi připojen k internetu?"])
  | Some response =>
      if bool_decide (status_code response ≠ 200)
      then let '(r, es) := reject rt self response (past ++ sent) in (r, sent ++ es)
      else (Ok response, sent)
  end.
Proof.
  unfold callApi. rewrite getURL_total, getHTTPMethod_total.
  unfold announce, request_of.
  destruct (verbose self); run_M; cbn zeta; cbn [app].
  all: rewrite ?app_nil_r.
  all: destruct (http_send w _ _) as [response|]; [|reflexivity].
  all: destruct (bool_decide _); [|reflexivity].
  all: rewrite <- ?app_assoc; cbn [app].
  all: destruct (reject _ _ _ _); reflexivity.
Qed.

(** The lines of the two error reports. *)
Definition rejected_line (msg : string) : string :=
  "Stránka KSP nepřijala tvůj požadavek: " +:+ msg.

Definition generic_line : string :=
  "Stránka KSP odpověděla chybou, která nemá json odpověď!".

(** What the non-200 branch does, by the content type of the response. *)
Lemma reject_run {A : Type} self response past :
  reject (A := A) rt self response past =
  match resp_headers response !! "content-type" with
  | None => (Raise (KeyError "content-type"), [])
  | Some content_type =>
      if String.eqb content_type "application/json" then
        match response_json response ≫= (fun body => getitem body "errorMsg") with
        | Ok msg => (Raise (SystemExit 1), [EvPrint (rejected_line (py_str rt msg))])
        | Raise e => (Raise e, [])
        end
      else if verbose self then (Raise TypeError, [EvPrint generic_line])
      else (Raise (SystemExit 1), [EvPrint generic_line])
  end.
Proof.
  unfold reject, header. change (lower "content-type") with "content-type".
  destruct (resp_headers response !! "content-type") as [ct|]; [|reflexivity].
  run_M. destruct (String.eqb ct "application/json").
  - destruct (response_json response) as [body|e]; [|reflexivity].
    destruct (getitem body "errorMsg"); reflexivity.
  - destruct (verbose self); reflexivity.
Qed.

(** The exchanges of a transcript. *)
Definition requests (es : list event) : list (APIOperation * Request) :=
  omap (fun e => match e with
                 | EvRequest operation request _ => Some (operation, request)
                 | _ => None
                 end) es.

Lemma requests_app es es' : requests (es ++ es') = requests es ++ requests es'.
Proof. apply omap_app. Qed.

Lemma requests_announce self operation : requests (announce self operation) = [].
Proof. unfold announce. destruct (verbose self); reflexivity. Qed.

Lemma requests_reject {A : Type} self response past :
  requests (reject (A := A) rt self response past).2 = [].
Proof.
  rewrite reject_run.
  repeat (case_match; try reflexivity).
Qed.

(** Whatever the answer, [callApi] sends one request, the one built from its
    arguments. *)
Lemma callApi_requests self operation eh ep data past :
  requests (callApi rt w self operation eh ep data past).2
  = [(operation, request_of self operation eh ep data)].
Proof.
  rewrite callApi_run. cbn zeta.
  destruct (http_send w _ _) as [response|].
  - destruct (bool_decide _).
    + pose proof (requests_reject (A := Response) self response
        (past ++ announce self operation ++
           [EvRequest operation (request_of self operation eh ep data) (Some response)])) as Hr.
      destruct (reject _ _ _ _) as [r es]. cbn [snd] in *.
      rewrite !requests_app, requests_announce, Hr. reflexivity.
    + cbn [snd]. rewrite requests_app, requests_announce. reflexivity.
  - cbn [snd]. rewrite !requests_app, requests_announce. reflexivity.
Qed.

End ClientFacts.

(** ** A concrete session

    Task [32-Z4-1] with three subtasks, a solver that prints one line, and a
    server that answers every call.  The variants below change one answer. *)

Module Session.

Definition rt : Runtime :=
  {| fromisoformat := fun s =>
       if String.eqb s "2024-05-01T12:00:00+02:00" then Aware 1714557600000000
       else Malformed;
     repr_container := fun _ => "[]";
     json_dumps := fun _ => "{}" |}.

Definition json_headers : gmap string string := {[ "content-type" := "application/json" ]}.
Definition text_headers : gmap string string := {[ "content-type" := "text/plain" ]}.

Definition subtask_record (id : Z) : json :=
  JObj (<["id" := JNum id]>
       (<["input_generated" := JBool false]>
       (<["points" := JNum 0]>
       {[ "max_points" := JNum 2 ]}))).

Definition status_body : json :=
  JObj (<["name" := JStr "Sedlák a calounictví"]>
       (<["points" := JNum 0]>
       (<["max_points" := JNum 6]>
       {[ "subtasks" := JArr [subtask_record 1; subtask_record 2; subtask_record 3] ]}))).

Definition verdict_body : json :=
  JObj (<["verdict" := JStr "OK"]>
       (<["points" := JNum 2]>
       {[ "max_points" := JNum 2 ]})).

Definition status_response : Response := mkResponse 200 json_headers "" (Some status_body).
Definition input_response : Response := mkResponse 200 text_headers "3 1 2 3" None.
Definition verdict_response : Response := mkResponse 200 json_headers "" (Some verdict_body).
Definition list_response : Response := mkResponse 200 json_headers "[]" (Some (JArr [])).

(** The server: one answer per endpoint. *)
Definition server (input_answer : Response) (request : Request) : option Response :=
  let url := req_url request in
  if String.eqb url (default_api_url +:+ "tasks/list") then Some list_response
  else if String.eqb url (default_api_url +:+ "tasks/status") then Some status_response
  else if String.eqb url (default_api_url +:+ "tasks/input") then Some input_answer
  else if String.eqb url (default_api_url +:+ "tasks/submit") then Some verdict_response
  else None.

Definition world_answering (input_answer : Response) : World :=
  {| http_send := fun _ request => server input_answer request;
     check_output := fun _ _ _ => Ok "6";
     home := "/home/ksp";
     token_file := fun path =>
       if String.eqb path "/home/ksp/.config/ksp-api-token" then Some "0123456789abcdef"
       else None;
     clock := fun _ => 1714557510000000 |}.

Definition w : World := world_answering input_response.

(** The client as [__init__] builds it from the command line without flags,
    and with [-v]. *)
Definition service_with (verbose_arg training_arg : bool) : KSPApiService :=
  {| api_url := default_api_url;
     token_path := "/home/ksp/.config/ksp-api-token";
     headers := {[ "Authorization" := "Bearer 0123456789abcdef" ]};
     training_ground := training_arg;
     verbose := verbose_arg |}.

Definition service : KSPApiService := service_with false false.

Definition run_arguments : Namespace :=
  {| arg_verbose := false; arg_cviciste := false; arg_api_url := None;
     operation_name := Some "run"; arg_task := "32-Z4-1"; arg_subtask := 0;
     arg_file := ""; sol_args := ["python3"; "solver.py"] |}.

End Session.

Example session_init :
  KSPApiService_init Session.w None None false false [] = (Ok Session.service, []).
Proof. reflexivity. Qed.

Section OperationFacts.

Context (rt : Runtime) (w : World).

(** A call sends exactly one request, of the given operation, method and
    address, with the bearer token in its [Authorization] header. *)
Definition sends_as (call : M Response) (operation : APIOperation)
    (method : HTTPMethod) (url token : string) : Prop :=
  forall past, exists request,
    requests (call past).2 = [(operation, request)] /\
    req_method request = method /\
    req_url request = url /\
    req_headers request !! "Authorization" = Some ("Bearer " +:+ token).

Lemma callApi_sends_as self operation eh ep data token :
  (eh ∪ headers self) !! "Authorization" = Some ("Bearer " +:+ token) ->
  sends_as (callApi rt w self operation eh ep data) operation (method_of operation)
    (api_url self +:+ path_of operation) token.
Proof.
  intros Hauth past. exists (request_of self operation eh ep data).
  split; [apply callApi_requests|]. repeat split. exact Hauth.
Qed.

(** [__init__] succeeds exactly when the token file exists, and then stores
    the token it reads as the only header. *)
Lemma init_headers api_url_arg token_path_arg tg vb past self es :
  KSPApiService_init w api_url_arg token_path_arg tg vb past = (Ok self, es) ->
  exists token,
    token_file w (token_path self) = Some token /\
    headers self = {[ "Authorization" := "Bearer " +:+ token ]}.
Proof.
  unfold KSPApiService_init, fileExists.
  destruct (token_file w (default (default_token_path w) token_path_arg)) as [token|] eqn:Htok.
  - run_M. cbn. intros [= <- <-]. exists token. cbn. split; [exact Htok|reflexivity].
  - run_M. cbn. intros [=].
Qed.

(** C4. Each of the five operations goes to its own fixed relative path
    ([tasks/list], [tasks/status], [tasks/input], [tasks/submit],
    [tasks/generate]), with GET for list and status and POST for the other
    three, and carries [Authorization: Bearer <token>], the token being the
    one the client read from its token file when it was constructed. *)
Theorem operations_path_method_token api_url_arg token_path_arg tg vb past self es :
  KSPApiService_init w api_url_arg token_path_arg tg vb past = (Ok self, es) ->
  exists token,
    token_file w (token_path self) = Some token /\
    forall task subtask gen content,
      sends_as (getList rt w self) LIST GET (api_url self +:+ "tasks/list") token /\
      sends_as (getStatus rt w self task) STATUS GET (api_url self +:+ "tasks/status") token /\
      sends_as (getTest rt w self task subtask gen) GET_TEST POST
        (api_url self +:+ "tasks/input") token /\
      sends_as (submit rt w self task subtask content) SUBMIT POST
        (api_url self +:+ "tasks/submit") token /\
      sends_as (generate rt w self task subtask) GENERATE POST
        (api_url self +:+ "tasks/generate") token.
Proof.
  intros Hinit. destruct (init_headers _ _ _ _ _ _ _ Hinit) as (token & Hfile & Hhdr).
  exists token. split; [exact Hfile|]. intros task subtask gen content.
  assert (Hplain : (no_headers ∪ headers self) !! "Authorization"
                   = Some ("Bearer " +:+ token)).
  { unfold no_headers. rewrite (left_id_L ∅ (∪)), Hhdr. apply lookup_singleton_eq. }
  assert (Htext : (({[ "Content-Type" := "text/plain" ]} : gmap string string) ∪ headers self)
                    !! "Authorization" = Some ("Bearer " +:+ token)).
  { rewrite Hhdr. apply lookup_union_Some_raw. right.
    split; [by apply lookup_singleton_ne | apply lookup_singleton_eq]. }
  repeat split.
  - unfold getList. exact (callApi_sends_as self LIST _ _ _ token Hplain).
  - exact (callApi_sends_as self STATUS _ _ _ token Hplain).
  - exact (callApi_sends_as self GET_TEST _ _ _ token Hplain).
  - exact (callApi_sends_as self SUBMIT _ _ _ token Htext).
  - exact (callApi_sends_as self GENERATE _ _ _ token Hplain).
Qed.

End OperationFacts.

Lemma operations_path_method_token_witness :
  exists token,
    token_file Session.w (token_path Session.service) = Some token /\
    forall task subtask gen content,
      sends_as (getList Session.rt Session.w Session.service) LIST GET
        (api_url Session.service +:+ "tasks/list") token /\
      sends_as (getStatus Session.rt Session.w Session.service task) STATUS GET
        (api_url Session.service +:+ "tasks/status") token /\
      sends_as (getTest Session.rt Session.w Session.service task subtask gen) GET_TEST POST
        (api_url Session.service +:+ "tasks/input") token /\
      sends_as (submit Session.rt Session.w Session.service task subtask content) SUBMIT POST
        (api_url Session.service +:+ "tasks/submit") token /\
      sends_as (generate Session.rt Session.w Session.service task subtask) GENERATE POST
        (api_url Session.service +:+ "tasks/generate") token.
Proof.
  apply (operations_path_method_token Session.rt Session.w None None false false []
           Session.service []).
  reflexivity.
Defined.

Section RequestFacts.

Context (rt : Runtime) (w : World).

(** C5. The request of [list()] has the training-ground filter [set] among
    its query parameters exactly when the client was configured with the
    training ground enabled; with the flag off the request has no query
    parameter at all. *)
Theorem getList_training_filter self past :
  exists request,
    requests (getList rt w self past).2 = [(LIST, request)] /\
    (is_Some (req_params request !! "set") <-> training_ground self = true) /\
    (training_ground self = true -> req_params request = {[ "set" := PStr "cviciste" ]}) /\
    (training_ground self = false -> req_params request = ∅).
Proof.
  unfold getList. eexists. split; [apply callApi_requests|].
  cbn [req_params request_of].
  destruct (training_ground self).
  - split; [|split; [reflexivity|discriminate]].
    split; [reflexivity|]. intros _. rewrite lookup_insert_eq. eauto.
  - split; [|split; [discriminate|reflexivity]].
    split; [|discriminate]. rewrite lookup_empty. intros [? [=]].
Qed.

(** C1. What [submit] puts on the wire does not contain [content]: the
    [data] of its one request is the empty dictionary that [callApi] takes by
    default, never the encoded bytes, so two calls that differ only in
    [content] behave alike. *)
Theorem submit_sends_no_content self task subtask content past :
  exists request,
    requests (submit rt w self task subtask content past).2 = [(SUBMIT, request)] /\
    req_data request = DataDict ∅ /\
    (forall body, req_data request <> DataBytes body) /\
    req_headers request !! "Content-Type" = Some "text/plain" /\
    req_params request !! "task" = Some (PStr task) /\
    req_params request !! "subtask" = Some (PInt subtask) /\
    forall content',
      submit rt w self task subtask content' past = submit rt w self task subtask content past.
Proof.
  unfold submit. eexists. split; [apply callApi_requests|].
  cbn [req_data req_headers req_params request_of]. unfold no_data.
  split; [reflexivity|]. split; [discriminate|].
  split; [apply lookup_union_Some_l, lookup_singleton_eq|].
  split; [apply lookup_insert_eq|].
  split; [rewrite lookup_insert_ne by done; apply lookup_singleton_eq|].
  reflexivity.
Qed.

(** C10. On a non-200 answer [callApi] looks the content type up without a
    default.  When the answer has no such header the lookup raises
    [KeyError] and nothing is printed after the request; the line carrying
    the server's [errorMsg] is printed only when the header is there and is
    exactly [application/json]; any other value leads to the generic line. *)
Theorem content_type_lookup_unguarded self operation eh ep data past response :
  http_send w (past ++ announce self operation) (request_of self operation eh ep data)
    = Some response ->
  status_code response <> 200 ->
  let sent := announce self operation
              ++ [EvRequest operation (request_of self operation eh ep data) (Some response)] in
  let result := callApi rt w self operation eh ep data past in
  (resp_headers response !! "content-type" = None ->
     result = (Raise (KeyError "content-type"), sent)) /\
  (forall content_type,
     resp_headers response !! "content-type" = Some content_type ->
     content_type <> "application/json" ->
     exists e, result = (Raise e, sent ++ [EvPrint generic_line])) /\
  (forall msg,
     resp_headers response !! "content-type" = Some "application/json" ->
     response_json response ≫= (fun body => getitem body "errorMsg") = Ok msg ->
     result = (Raise (SystemExit 1), sent ++ [EvPrint (rejected_line (py_str rt msg))])) /\
  (forall msg,
     EvPrint (rejected_line msg) ∈ result.2 ->
     resp_headers response !! "content-type" = Some "application/json").
Proof.
  intros Hsend Hstatus sent result. subst result.
  rewrite callApi_run. cbn zeta. rewrite Hsend.
  rewrite bool_decide_true by exact Hstatus.
  rewrite reject_run. fold sent.
  assert (Hsent : forall msg, EvPrint (rejected_line msg) ∉ sent).
  { intros msg Hin. subst sent. apply elem_of_app in Hin as [Hin|Hin].
    - unfold announce in Hin. destruct (verbose self); [|inversion Hin].
      apply list_elem_of_singleton in Hin. discriminate Hin.
    - apply list_elem_of_singleton in Hin. discriminate Hin. }
  destruct (resp_headers response !! "content-type") as [ct|] eqn:Hct.
  - destruct (String.eqb_spec ct "application/json") as [->|Hne].
    + split; [discriminate|]. split; [intros ? [= <-] Hc; by destruct Hc|].
      split; [|reflexivity].
      intros msg _ ->. reflexivity.
    + split; [discriminate|]. split.
      * intros ? _ _. destruct (verbose self); eauto.
      * split; [intros msg [= ->]; by destruct Hne|].
        intros msg Hin. exfalso.
        assert (Hin' : EvPrint (rejected_line msg) ∈ sent ++ [EvPrint generic_line])
          by (destruct (verbose self); exact Hin).
        apply elem_of_app in Hin' as [Hin'|Hin']; [by apply (Hsent msg)|].
        apply list_elem_of_singleton in Hin'. discriminate Hin'.
  - split; [intros _; by rewrite app_nil_r|].
    split; [discriminate|]. split; [discriminate|].
    intros msg Hin. cbn [snd] in Hin. rewrite app_nil_r in Hin.
    by destruct (Hsent msg).
Qed.

End RequestFacts.

Lemma content_type_lookup_unguarded_witness :
  let response := mkResponse 500 ∅ "Internal Server Error" None in
  callApi Session.rt (Session.world_answering response) Session.service
    GET_TEST no_headers no_params no_data []
  = (Raise (KeyError "content-type"),
     [EvRequest GET_TEST
        (request_of Session.service GET_TEST no_headers no_params no_data) (Some response)]).
Proof.
  intros response.
  refine (proj1 (content_type_lookup_unguarded Session.rt (Session.world_answering response)
                   Session.service GET_TEST no_headers no_params no_data [] response _ _) _).
  - reflexivity.
  - cbn. lia.
  - reflexivity.
Defined.

(** The session with [-v], and a gateway in front of the server that answers
    the request for a test input with an HTML error page. *)
Definition bad_gateway : Response :=
  mkResponse 502 {[ "content-type" := "text/html" ]} "<html>502 Bad Gateway</html>" None.

(** C3. With [-v], a non-200 answer that is not JSON gets the generic line
    and then the call [response.text()] raises [TypeError], [text] being a
    string: the body is not printed, and the process ends on the uncaught
    exception (status 1) instead of on [sys.exit(1)]. *)
Theorem verbose_report_omits_body :
  let w := Session.world_answering bad_gateway in
  let self := Session.service_with true false in
  let request := request_of self GET_TEST no_headers
                   (<["task" := PStr "32-Z4-1"]>
                      (<["subtask" := PInt 1]> {[ "generate" := PStr "true" ]})) no_data in
  let result := getTest Session.rt w self "32-Z4-1" 1 true [] in
  result = (Raise TypeError,
            [EvPrint "Posílám požadavek na: https://ksp.mff.cuni.cz/api/tasks/input";
             EvRequest GET_TEST request (Some bad_gateway);
             EvPrint generic_line]) /\
  (EvPrint (resp_text bad_gateway) ∉ result.2) /\
  exit_status result.1 = 1.
Proof.
  cbn zeta. split; [reflexivity|]. split; [|reflexivity].
  intros Hin. cbn in Hin.
  repeat (apply elem_of_cons in Hin as [Hin|Hin]; [discriminate Hin|]).
  inversion Hin.
Qed.

(** ** Which requests a command sends *)

Lemma elem_of_requests operation request answer es :
  EvRequest operation request answer ∈ es -> (operation, request) ∈ requests es.
Proof.
  intros Hin. apply list_elem_of_omap. eexists. split; [exact Hin|reflexivity].
Qed.

(** Every request a computation sends satisfies [P]. *)
Definition sends_only {A : Type} (P : APIOperation -> Request -> Prop) (m : M A) : Prop :=
  forall past, Forall (fun c => P c.1 c.2) (requests (m past).2).

Section SendsOnly.

Context (rt : Runtime) (w : World) (P : APIOperation -> Request -> Prop).

Lemma sends_only_ret {A : Type} (a : A) : sends_only P (mret a : M A).
Proof. intros past. constructor. Qed.

Lemma sends_only_lift {A : Type} (o : outcome A) : sends_only P (lift o).
Proof. intros past. constructor. Qed.

Lemma sends_only_print line : sends_only P (print line).
Proof. intros past. constructor. Qed.

Lemma sends_only_bind {A B : Type} (m : M A) (f : A -> M B) :
  sends_only P m -> (forall a, sends_only P (f a)) -> sends_only P (m ≫= f).
Proof.
  intros Hm Hf past. specialize (Hm past).
  unfold mbind, M_bind. destruct (m past) as [[a|e] es]; cbn [snd] in *; [|exact Hm].
  specialize (Hf a (past ++ es)). destruct (f a (past ++ es)) as [r es']. cbn [snd] in *.
  rewrite requests_app. by apply Forall_app.
Qed.

Lemma sends_only_for_each {A : Type} (l : list A) (body : A -> M unit) :
  (forall x, sends_only P (body x)) -> sends_only P (for_each l body).
Proof.
  intros Hbody. induction l as [|x l IH]; cbn [for_each].
  - apply sends_only_ret.
  - apply sends_only_bind; [apply Hbody|intros _; exact IH].
Qed.

Lemma sends_only_callApi self operation eh ep data :
  P operation (request_of self operation eh ep data) ->
  sends_only P (callApi rt w self operation eh ep data).
Proof.
  intros HP past. rewrite callApi_requests. by repeat constructor.
Qed.

Lemma sends_only_run_solver args input : sends_only P (run_solver w args input).
Proof. intros past. constructor. Qed.

Lemma sends_only_formatTime_now subtask : sends_only P (formatTime_now rt w subtask).
Proof. intros past. constructor. Qed.

End SendsOnly.

Create HintDb sends.

#[local] Hint Resolve sends_only_ret sends_only_lift sends_only_print sends_only_run_solver
  sends_only_formatTime_now : sends.

(** Goes through a handler, one statement at a time. *)
Ltac sends_step :=
  first [ solve [auto with sends]
        | simple apply sends_only_callApi; split; [discriminate|reflexivity]
        | simple apply sends_only_for_each; intros ?
        | simple apply sends_only_bind; [|intros ?] ].

Section CommandFacts.

Context (rt : Runtime) (w : World).

(** A request of the client that is not the [generate] operation. *)
Definition not_generate (self : KSPApiService) (operation : APIOperation)
    (request : Request) : Prop :=
  operation <> GENERATE /\ req_url request = api_url self +:+ path_of operation.

Lemma handlers_not_generate name handler :
  find_operation name (operations rt w) = Some handler ->
  forall self arguments, sends_only (not_generate self) (handler self arguments).
Proof.
  intros Hfind self arguments. cbn in Hfind.
  repeat case_match; simplify_eq.
  - unfold handleList, getList, printNiceJson. repeat sends_step.
  - unfold handleStatus, getStatus, printTableStatus, printTableRow. repeat sends_step.
  - unfold handleSubmit, submit, printNiceJson. repeat sends_step.
  - unfold handleGenerate, getTest. repeat sends_step.
  - unfold handleRun, run_subtask, getStatus, getTest, submit. repeat sends_step.
Qed.

(** C9. The [generate] subcommand calls the get-test-input operation: one
    POST to [tasks/input] with [generate=true] for the task and subtask of
    the command line, and on a 200 answer it prints the text it got.  No
    handler in [operations] ever sends a request of the [tasks/generate]
    operation, which only the method [generate] of the client would do. *)
Theorem generate_command_uses_get_test self arguments :
  (forall past, exists request,
     requests (handleGenerate rt w self arguments past).2 = [(GET_TEST, request)] /\
     req_method request = POST /\
     req_url request = api_url self +:+ "tasks/input" /\
     req_params request !! "generate" = Some (PStr "true") /\
     req_params request !! "task" = Some (PStr (arg_task arguments)) /\
     req_params request !! "subtask" = Some (PInt (arg_subtask arguments)) /\
     forall response,
       http_send w (past ++ announce self GET_TEST) request = Some response ->
       status_code response = 200 ->
       handleGenerate rt w self arguments past
       = (Ok tt, announce self GET_TEST
                 ++ [EvRequest GET_TEST request (Some response);
                     EvPrint (resp_text response)])) /\
  find_operation "generate" (operations rt w) = Some (handleGenerate rt w) /\
  (forall name handler,
     find_operation name (operations rt w) = Some handler ->
     forall self' arguments' past operation request answer,
       EvRequest operation request answer ∈ (handler self' arguments' past).2 ->
       operation <> GENERATE /\ req_url request <> api_url self' +:+ "tasks/generate").
Proof.
  split; [|split; [reflexivity|]].
  - intros past. eexists. split.
    { unfold handleGenerate, mbind, M_bind.
      pose proof (callApi_requests rt w self GET_TEST no_headers
        (<["task" := PStr (arg_task arguments)]>
           (<["subtask" := PInt (arg_subtask arguments)]> {[ "generate" := PStr "true" ]}))
        no_data past) as Hreq.
      unfold getTest. destruct (callApi _ _ _ _ _ _ _ _) as [[r|e] es]; cbn [snd] in *.
      - cbn. rewrite requests_app, Hreq. reflexivity.
      - exact Hreq. }
    cbn [req_method req_url req_params request_of method_of path_of].
    split; [reflexivity|]. split; [reflexivity|].
    split; [by rewrite !lookup_insert_ne, lookup_singleton_eq|].
    split; [by rewrite lookup_insert_eq|].
    split; [by rewrite lookup_insert_ne, lookup_insert_eq|].
    intros response Hsend Hstatus.
    unfold handleGenerate, getTest, mbind, M_bind. rewrite callApi_run. cbn zeta.
    rewrite Hsend, bool_decide_false by (intros H; exact (H Hstatus)).
    cbn. by rewrite <- app_assoc.
  - intros name handler Hfind self' arguments' past operation request answer Hin.
    apply elem_of_requests in Hin.
    pose proof (handlers_not_generate name handler Hfind self' arguments' past) as Hall.
    rewrite Forall_forall in Hall. destruct (Hall _ Hin) as [Hop Hurl]. cbn [fst snd] in *.
    split; [exact Hop|]. rewrite Hurl. intros Heq. apply (inj _) in Heq.
    by destruct operation.
Qed.

End CommandFacts.

(** ** The time left *)

Lemma round_of_int n : round (of_int n) = n.
Proof.
  unfold round, of_int, million.
  rewrite Z.div_mul, Z.mod_mul by lia. reflexivity.
Qed.

Lemma append_assoc s1 s2 s3 : (s1 +:+ s2) +:+ s3 = s1 +:+ (s2 +:+ s3).
Proof.
  induction s1 as [|c s1 IH]; [reflexivity|].
  change (String c ((s1 +:+ s2) +:+ s3) = String c (s1 +:+ s2 +:+ s3)).
  by rewrite IH.
Qed.

Lemma append_nonempty_r s1 s2 : s2 <> "" -> s1 +:+ s2 <> "".
Proof. destruct s1; cbn; [trivial|discriminate]. Qed.

(** [czechTime] returns the empty string exactly for a value that rounds to
    zero. *)
Lemma czechTime_empty_iff x f1 f2 f3 : czechTime x f1 f2 f3 = "" <-> round x = 0.
Proof.
  unfold czechTime. destruct (Z.eqb_spec (round x) 0) as [->|Hne]; [tauto|].
  split; [|tauto]. intros Hempty. exfalso.
  repeat case_match; (eapply append_nonempty_r; [|exact Hempty]); discriminate.
Qed.

Lemma keep_nonempty_filter l : keep_nonempty l = filter (fun x => x <> "") l.
Proof.
  induction l as [|x l IH]; [reflexivity|]. cbn [keep_nonempty].
  destruct (String.eqb_spec x "") as [->|Hne]; cbn [negb].
  - rewrite filter_cons_False by tauto. exact IH.
  - rewrite filter_cons_True by exact Hne. by rewrite IH.
Qed.

(** [formatTime] on a subtask dictionary, branch by branch. *)
Lemma formatTime_not_generated rt now (o : gmap string json) generated :
  o !! "input_generated" = Some generated -> truthy generated = false ->
  formatTime rt now (JObj o) = Ok "Nevygenerováno".
Proof. intros Hg Ht. unfold formatTime. cbn. rewrite Hg. cbn. by rewrite Ht. Qed.

Lemma formatTime_generated rt now (o : gmap string json) generated s :
  o !! "input_generated" = Some generated -> truthy generated = true ->
  o !! "input_valid_until" = Some (JStr s) ->
  formatTime rt now (JObj o) =
  if startswith s "9999" then Ok "stále"
  else match fromisoformat rt s with
       | Aware t => Ok (format_delta (t - now))
       | Naive _ => Raise TypeError
       | Malformed => Raise ValueError
       end.
Proof.
  intros Hg Ht Hv. unfold formatTime. cbn. rewrite Hg. cbn. rewrite Ht, Hv. cbn.
  destruct (startswith s "9999"); [reflexivity|].
  by destruct (fromisoformat rt s).
Qed.

(** C6. For a subtask whose [input_generated] is false the formatter returns
    the literal [Nevygenerováno]; for a generated one whose expiry starts with
    the year 9999 it returns the literal [stále]; for one expiring exactly 90
    seconds after the clock reading it returns [1 minuta a 30 sekund]; in
    general it returns the non-empty component strings joined by [ a ] when
    there are two of them and by commas with [ a ] before the last when there
    are three or four. *)
Theorem formatTime_cases rt now (o : gmap string json) generated :
  o !! "input_generated" = Some generated ->
  (truthy generated = false -> formatTime rt now (JObj o) = Ok "Nevygenerováno") /\
  (forall s,
     truthy generated = true -> o !! "input_valid_until" = Some (JStr s) ->
     (startswith s "9999" = true -> formatTime rt now (JObj o) = Ok "stále") /\
     (forall t,
        startswith s "9999" = false -> fromisoformat rt s = Aware t ->
        formatTime rt now (JObj o)
        = Ok (join_parts (filter (fun x => x <> "") (component_strs (t - now)))) /\
        (t = now + of_int 90 -> formatTime rt now (JObj o) = Ok "1 minuta a 30 sekund"))) /\
  (forall a b c d,
     join_parts [] = "" /\
     join_parts [a] = a /\
     join_parts [a; b] = a +:+ " a " +:+ b /\
     join_parts [a; b; c] = a +:+ ", " +:+ b +:+ " a " +:+ c /\
     join_parts [a; b; c; d] = a +:+ ", " +:+ b +:+ ", " +:+ c +:+ " a " +:+ d).
Proof.
  intros Hg. split; [apply formatTime_not_generated; exact Hg|]. split.
  - intros s Ht Hv. rewrite (formatTime_generated rt now o generated s Hg Ht Hv).
    split; [by intros ->|]. intros t -> ->. split.
    + unfold format_delta. by rewrite keep_nonempty_filter.
    + intros ->. replace (now + of_int 90 - now) with (of_int 90) by lia. reflexivity.
  - intros a b c d. unfold join_parts, init_of, last_of. cbn.
    repeat split; try reflexivity.
    all: rewrite ?append_assoc; reflexivity.
Qed.

Definition expiring_subtask : gmap string json :=
  <["id" := JNum 1]>
  (<["input_generated" := JBool true]>
  (<["input_valid_until" := JStr "2024-05-01T12:00:00+02:00"]>
  (<["points" := JNum 0]>
  {[ "max_points" := JNum 2 ]}))).

Lemma formatTime_cases_witness :
  formatTime Session.rt 1714557510000000 (JObj expiring_subtask) = Ok "1 minuta a 30 sekund".
Proof.
  pose proof (formatTime_cases Session.rt 1714557510000000 expiring_subtask (JBool true)
                eq_refl) as (_ & Hgen & _).
  destruct (Hgen "2024-05-01T12:00:00+02:00" eq_refl eq_refl) as [_ Hleft].
  destruct (Hleft 1714557600000000 eq_refl eq_refl) as [_ H90].
  apply H90. reflexivity.
Defined.

(** The four values [formatTime] hands to [czechTime], each with the three
    forms of its unit. *)
Definition component_table (total_seconds : Z) : list (Z * (string * string * string)) :=
  let '(days, hours, minutes, seconds) := components total_seconds in
  [ (of_int days, ("den", "dny", "dnů"));
    (of_int hours, ("hodina", "hodiny", "hodin"));
    (of_int minutes, ("minuta", "minuty", "minut"));
    (seconds, ("sekunda", "sekundy", "sekund")) ].

(** A component is shown when its rounded value is not zero. *)
Definition shown (component : Z * (string * string * string)) : option string :=
  let '(value, (first_form, second_form, third_form)) := component in
  if decide (round value = 0) then None
  else Some (czechTime value first_form second_form third_form).

Lemma keep_nonempty_shown (table : list (Z * (string * string * string))) :
  keep_nonempty ((fun c => czechTime c.1 c.2.1.1 c.2.1.2 c.2.2) <$> table) = omap shown table.
Proof.
  induction table as [|[value [[f1 f2] f3]] table IH]; [reflexivity|].
  cbn [fmap list_fmap keep_nonempty omap list_omap shown fst snd]. rewrite IH.
  pose proof (czechTime_empty_iff value f1 f2 f3) as Hempty.
  destruct (String.eqb_spec (czechTime value f1 f2 f3) "") as [He|Hne]; cbn [negb].
  - rewrite decide_True by tauto. reflexivity.
  - rewrite decide_False by tauto. reflexivity.
Qed.

Lemma component_strs_table total_seconds :
  component_strs total_seconds
  = (fun c => czechTime c.1 c.2.1.1 c.2.1.2 c.2.2) <$> component_table total_seconds.
Proof.
  unfold component_strs, component_table.
  destruct (components total_seconds) as [[[days hours] minutes] seconds]. reflexivity.
Qed.

(** C7, as the code has it. The value is rounded first.  A value of 1 gives
    the singular form, 2, 3 and 4 the form for a few, 5 and more the plural
    form; for 0 [czechTime] gives no form but the empty string, and
    [formatTime] joins exactly the components whose value is not zero. *)
Theorem czechTime_forms x first_form second_form third_form :
  (round x = 1 -> czechTime x first_form second_form third_form = "1 " +:+ first_form) /\
  (2 <= round x <= 4 ->
     czechTime x first_form second_form third_form
     = str_of_Z (round x) +:+ " " +:+ second_form) /\
  (5 <= round x ->
     czechTime x first_form second_form third_form
     = str_of_Z (round x) +:+ " " +:+ third_form) /\
  (round x = 0 -> czechTime x first_form second_form third_form = "") /\
  (forall n, round (of_int n) = n) /\
  (forall total_seconds,
     format_delta total_seconds = join_parts (omap shown (component_table total_seconds))).
Proof.
  unfold czechTime. repeat split.
  - intros ->. reflexivity.
  - intros H. rewrite !(proj2 (Z.eqb_neq _ _)) by lia.
    by rewrite (proj2 (Z.ltb_lt _ _)) by lia.
  - intros H. rewrite !(proj2 (Z.eqb_neq _ _)) by lia.
    by rewrite (proj2 (Z.ltb_ge _ _)) by lia.
  - intros ->. reflexivity.
  - apply round_of_int.
  - intros total_seconds. unfold format_delta.
    by rewrite component_strs_table, keep_nonempty_shown.
Qed.

(** Zero has no form: where the plural form of zero days would be [0 dnů],
    [czechTime] returns the empty string. *)
Lemma czechTime_zero_not_plural :
  czechTime (of_int 0) "den" "dny" "dnů" <> str_of_Z 0 +:+ " " +:+ "dnů".
Proof. discriminate. Qed.

Lemma czechTime_forms_witness :
  czechTime (of_int 3) "hodina" "hodiny" "hodin" = "3 hodiny".
Proof.
  pose proof (czechTime_forms (of_int 3) "hodina" "hodiny" "hodin") as (_ & Hfew & _).
  apply Hfew. rewrite round_of_int. lia.
Defined.

(** ** Expired inputs *)

Lemma components_past total_seconds :
  total_seconds < 0 ->
  exists days hours minutes seconds,
    components total_seconds = (days, hours, minutes, seconds) /\
    days < 0 /\ 0 <= hours < 24 /\ 0 <= minutes < 60 /\ 0 <= seconds < of_int 60.
Proof.
  intros Hneg. unfold components, divmod, of_int, million.
  eexists _, _, _, _. split; [reflexivity|].
  set (r1 := total_seconds mod (60 * 60 * 24 * 1000000)).
  set (r2 := r1 mod (60 * 60 * 1000000)).
  assert (0 <= r1 < 60 * 60 * 24 * 1000000) by (apply Z.mod_pos_bound; lia).
  assert (0 <= r2 < 60 * 60 * 1000000) by (apply Z.mod_pos_bound; lia).
  assert (0 <= r2 mod (60 * 1000000) < 60 * 1000000) by (apply Z.mod_pos_bound; lia).
  repeat split; try lia.
  - apply Z.div_lt_upper_bound; lia.
  - apply Z.div_pos; lia.
  - apply Z.div_lt_upper_bound; lia.
  - apply Z.div_pos; lia.
  - apply Z.div_lt_upper_bound; lia.
Qed.

Lemma round_bounds x : 0 <= x < of_int 60 -> 0 <= round x <= 60.
Proof.
  unfold round, of_int. unfold million. intros Hx. cbv zeta.
  assert (0 <= x / 1000000 < 60)
    by (split; [apply Z.div_pos|apply Z.div_lt_upper_bound]; lia).
  destruct (_ <? _); [lia|]. destruct (_ <? _); [lia|]. destruct (Z.even _); lia.
Qed.

Lemma czechTime_negative days f1 f2 f3 :
  days < 0 ->
  czechTime (of_int days) f1 f2 f3 = str_of_Z days +:+ " " +:+ f2 /\
  String.prefix "-" (str_of_Z days) = true.
Proof.
  intros Hneg. unfold czechTime. rewrite round_of_int.
  rewrite !(proj2 (Z.eqb_neq _ _)) by lia. rewrite (proj2 (Z.ltb_lt _ _)) by lia.
  split; [reflexivity|]. destruct days as [|p|p]; [lia|lia|].
  change (String.prefix "-" (String "-" (pretty p)) = true).
  generalize (pretty p). intros s. destruct s; reflexivity.
Qed.

(** No component of the time left is shown with a negative value. *)
Definition no_negative_component (total_seconds : Z) : Prop :=
  Forall (fun c => 0 <= round c.1) (component_table total_seconds).

(** C8, as the code has it.  For a generated subtask whose expiry lies before
    the clock reading nothing is floored to zero: the number of days is the
    floored quotient and so is negative, it is printed with its minus sign and
    the form [dny]; hours, minutes and seconds count up from that day and are
    not negative. *)
Theorem formatTime_expired_not_floored rt now (o : gmap string json) generated s t :
  o !! "input_generated" = Some generated -> truthy generated = true ->
  o !! "input_valid_until" = Some (JStr s) -> startswith s "9999" = false ->
  fromisoformat rt s = Aware t -> t < now ->
  exists days hours minutes seconds,
    components (t - now) = (days, hours, minutes, seconds) /\
    days < 0 /\ 0 <= hours < 24 /\ 0 <= minutes < 60 /\ 0 <= round seconds <= 60 /\
    String.prefix "-" (str_of_Z days) = true /\
    formatTime rt now (JObj o)
    = Ok (join_parts
            ((str_of_Z days +:+ " dny")
             :: keep_nonempty [czechTime (of_int hours) "hodina" "hodiny" "hodin";
                               czechTime (of_int minutes) "minuta" "minuty" "minut";
                               czechTime seconds "sekunda" "sekundy" "sekund"])).
Proof.
  intros Hg Ht Hv Hs Hiso Hpast.
  destruct (components_past (t - now)) as (days & hours & minutes & seconds & Hc & Hd & Hh & Hm & Hsec);
    [lia|].
  exists days, hours, minutes, seconds.
  destruct (czechTime_negative days "den" "dny" "dnů" Hd) as [Hday Hminus].
  repeat (split; [first [exact Hc | exact Hminus | lia | apply round_bounds; exact Hsec]|]).
  rewrite (formatTime_generated rt now o generated s Hg Ht Hv), Hs, Hiso.
  unfold format_delta, component_strs. rewrite Hc, Hday.
  change (str_of_Z days +:+ " " +:+ "dny") with (str_of_Z days +:+ " dny").
  cbn [keep_nonempty].
  destruct (String.eqb_spec (str_of_Z days +:+ " dny") "") as [Hempty|_]; [|reflexivity].
  by apply append_nonempty_r in Hempty.
Qed.

(** An input that expired ten seconds before the clock reading. *)
Lemma formatTime_expired_counterexample :
  formatTime Session.rt 1714557610000000 (JObj expiring_subtask)
  = Ok "-1 dny, 23 hodin, 59 minut a 50 sekund" /\
  ~ no_negative_component (1714557600000000 - 1714557610000000).
Proof.
  split; [reflexivity|].
  intros Hall. apply Forall_cons in Hall as [Hdays _]. revert Hdays. vm_compute. tauto.
Qed.

Lemma formatTime_expired_not_floored_witness :
  exists days hours minutes seconds,
    components (1714557600000000 - 1714557610000000) = (days, hours, minutes, seconds) /\
    days < 0 /\ 0 <= hours < 24 /\ 0 <= minutes < 60 /\ 0 <= round seconds <= 60 /\
    String.prefix "-" (str_of_Z days) = true /\
    formatTime Session.rt 1714557610000000 (JObj expiring_subtask)
    = Ok (join_parts
            ((str_of_Z days +:+ " dny")
             :: keep_nonempty [czechTime (of_int hours) "hodina" "hodiny" "hodin";
                               czechTime (of_int minutes) "minuta" "minuty" "minut";
                               czechTime seconds "sekunda" "sekundy" "sekund"])).
Proof.
  apply (formatTime_expired_not_floored Session.rt 1714557610000000 expiring_subtask
           (JBool true) "2024-05-01T12:00:00+02:00" 1714557600000000);
    first [reflexivity | lia].
Defined.

(** ** The [run] command *)

Lemma bind_ok {A B : Type} (m : M A) (f : A -> M B) past a es :
  m past = (Ok a, es) ->
  (m ≫= f) past = ((f a (past ++ es)).1, es ++ (f a (past ++ es)).2).
Proof.
  intros Hm. unfold mbind, M_bind. rewrite Hm. by destruct (f a (past ++ es)).
Qed.

Lemma bind_raise {A B : Type} (m : M A) (f : A -> M B) past e es :
  m past = (Raise e, es) -> (m ≫= f) past = (Raise e, es).
Proof. intros Hm. unfold mbind, M_bind. by rewrite Hm. Qed.

Section RunFacts.

Context (rt : Runtime) (w : World) (self : KSPApiService) (arguments : Namespace).

Let task : string := arg_task arguments.

(** The requests of the three calls [handleRun] makes. *)
Definition status_request : Request :=
  request_of self STATUS no_headers {[ "task" := PStr task ]} no_data.

Definition getTest_request (subtask : Z) : Request :=
  request_of self GET_TEST no_headers
    (<["task" := PStr task]>
       (<["subtask" := PInt subtask]> {[ "generate" := PStr "true" ]}))
    no_data.

Definition submit_request (subtask : Z) : Request :=
  request_of self SUBMIT {[ "Content-Type" := "text/plain" ]}
    (<["task" := PStr task]> {[ "subtask" := PInt subtask ]})
    no_data.

(** A call that is answered with status 200 returns the answer. *)
Lemma callApi_ok operation eh ep data past response :
  http_send w (past ++ announce self operation) (request_of self operation eh ep data)
    = Some response ->
  status_code response = 200 ->
  callApi rt w self operation eh ep data past
  = (Ok response,
     announce self operation
     ++ [EvRequest operation (request_of self operation eh ep data) (Some response)]).
Proof.
  intros Hsend Hstatus. rewrite callApi_run. cbn zeta. rewrite Hsend.
  by rewrite bool_decide_false by (intros H; exact (H Hstatus)).
Qed.

(** What one subtask leaves in the transcript when all goes well: the
    get-test exchange, the run of the solver on the text fetched, the submit
    exchange and the verdict line. *)
Definition subtask_events (subtask : Z) (input_response : Response) (output : string)
    (verdict_response : Response) (line : string) : list event :=
  announce self GET_TEST
  ++ [EvRequest GET_TEST (getTest_request subtask) (Some input_response);
      EvSubprocess (sol_args arguments) (encode (resp_text input_response)) (Ok output)]
  ++ announce self SUBMIT
  ++ [EvRequest SUBMIT (submit_request subtask) (Some verdict_response);
      EvPrint line].

(** The transcript of a loop that visits the given subtasks in order, each
    one completely: both calls answered with status 200, the solver
    delivering an output, the verdict printed. *)
Inductive visits : list Z -> list event -> Prop :=
  | visits_nil : visits [] []
  | visits_cons subtask indices input_response output verdict_response resp line rest :
      status_code input_response = 200 ->
      status_code verdict_response = 200 ->
      resp_json verdict_response = Some resp ->
      verdict_line rt subtask resp = Ok line ->
      visits indices rest ->
      visits (subtask :: indices)
        (subtask_events subtask input_response output verdict_response line ++ rest).

(** The transcript of a run over [n] subtasks: the status exchange, then
    subtasks 1 to [n]. *)
Definition run_visits_all (n : nat) (es : list event) : Prop :=
  exists status_response rest,
    es = announce self STATUS
         ++ [EvRequest STATUS status_request (Some status_response)] ++ rest /\
    number_of_subtasks status_response = Ok n /\
    visits (range1 n) rest.

(** An answer that ends the command: no connection, or another status than
    200. *)
Definition refused (answer : option Response) : Prop :=
  forall response, answer = Some response -> status_code response <> 200.

(** What [callApi] prints about a refused call: lines, none of them a
    verdict line. *)
Definition is_report (es : list event) : Prop :=
  Forall (fun e => exists line,
            e = EvPrint line /\ String.prefix "Podúloha " line = false) es.

(** The transcript of a subtask at which the run ends, with the exception
    that ends it: the get-test call is refused; or the solver raises; or the
    submit call is refused; or its answer has no verdict to print. *)
Inductive attempt (subtask : Z) : exn -> list event -> Prop :=
  | attempt_fetch answer e report :
      refused answer -> is_report report ->
      exit_status (Raise e : outcome unit) = 1 ->
      attempt subtask e
        (announce self GET_TEST
         ++ [EvRequest GET_TEST (getTest_request subtask) answer] ++ report)
  | attempt_solve input_response e :
      status_code input_response = 200 ->
      attempt subtask e
        (announce self GET_TEST
         ++ [EvRequest GET_TEST (getTest_request subtask) (Some input_response);
             EvSubprocess (sol_args arguments) (encode (resp_text input_response)) (Raise e)])
  | attempt_submit input_response output answer e report :
      status_code input_response = 200 ->
      refused answer -> is_report report ->
      exit_status (Raise e : outcome unit) = 1 ->
      attempt subtask e
        (announce self GET_TEST
         ++ [EvRequest GET_TEST (getTest_request subtask) (Some input_response);
             EvSubprocess (sol_args arguments) (encode (resp_text input_response)) (Ok output)]
         ++ announce self SUBMIT
         ++ [EvRequest SUBMIT (submit_request subtask) answer] ++ report)
  | attempt_verdict input_response output verdict_response e :
      status_code input_response = 200 ->
      status_code verdict_response = 200 ->
      response_json verdict_response ≫= verdict_line rt subtask = Raise e ->
      attempt subtask e
        (announce self GET_TEST
         ++ [EvRequest GET_TEST (getTest_request subtask) (Some input_response);
             EvSubprocess (sol_args arguments) (encode (resp_text input_response)) (Ok output)]
         ++ announce self SUBMIT
         ++ [EvRequest SUBMIT (submit_request subtask) (Some verdict_response)]).

(** The non-200 branch raises, with exit status 1, and prints a report. *)
Lemma reject_report {A : Type} response past :
  exists e report,
    reject (A := A) rt self response past = (Raise e, report) /\
    is_report report /\ exit_status (Raise e : outcome unit) = 1.
Proof.
  rewrite reject_run.
  assert (Hline : forall line, String.prefix "Podúloha " line = false ->
                               is_report [EvPrint line])
    by (intros line Hp; repeat constructor; by exists line).
  assert (Hnil : is_report []) by constructor.
  destruct (resp_headers response !! "content-type") as [ct|]; [|by eexists _, _].
  destruct (String.eqb ct "application/json").
  - unfold response_json. destruct (resp_json response) as [body|]; [|by eexists _, _].
    cbn. unfold getitem. destruct body as [| | | | |o]; try (by eexists _, _).
    destruct (o !! "errorMsg"); [|by eexists _, _].
    eexists _, _. split; [reflexivity|]. split; [|reflexivity]. by apply Hline.
  - destruct (verbose self); eexists _, _; (split; [reflexivity|]);
      (split; [|reflexivity]); by apply Hline.
Qed.

(** A call either returns a 200 answer, or ends the command after the
    request and a report. *)
Lemma callApi_cases operation eh ep data past :
  let request := request_of self operation eh ep data in
  let answer := http_send w (past ++ announce self operation) request in
  (exists response,
     answer = Some response /\ status_code response = 200 /\
     callApi rt w self operation eh ep data past
     = (Ok response, announce self operation ++ [EvRequest operation request (Some response)]))
  \/
  (refused answer /\
   exists e report,
     is_report report /\ exit_status (Raise e : outcome unit) = 1 /\
     callApi rt w self operation eh ep data past
     = (Raise e, announce self operation ++ [EvRequest operation request answer] ++ report)).
Proof.
  cbn zeta. rewrite callApi_run. cbn zeta.
  destruct (http_send w _ _) as [response|].
  - destruct (bool_decide_reflect (status_code response ≠ 200)) as [Hne|Heq].
    + right. split; [by intros r [= <-]|].
      destruct (reject_report (A := Response) response
                  (past ++ announce self operation ++
                     [EvRequest operation (request_of self operation eh ep data)
                        (Some response)])) as (e & report & -> & Hrep & Hexit).
      exists e, report. by rewrite <- app_assoc.
    + apply dec_stable in Heq. left. by exists response.
  - right. split; [by intros r [=]|].
    eexists (SystemExit 1), _. split; [|split; [reflexivity|by rewrite <- app_assoc]].
    repeat constructor; by eexists.
Qed.

(** One subtask: it goes through, or the run ends in it. *)
Lemma run_subtask_cases subtask past :
  (exists input_response output verdict_response resp line,
     status_code input_response = 200 /\
     status_code verdict_response = 200 /\
     resp_json verdict_response = Some resp /\
     verdict_line rt subtask resp = Ok line /\
     run_subtask rt w self arguments task subtask past
     = (Ok tt, subtask_events subtask input_response output verdict_response line))
  \/
  (exists e tail,
     attempt subtask e tail /\
     run_subtask rt w self arguments task subtask past = (Raise e, tail)).
Proof.
  unfold run_subtask.
  destruct (callApi_cases GET_TEST no_headers
              (<["task" := PStr task]>
                 (<["subtask" := PInt subtask]> {[ "generate" := PStr "true" ]}))
              no_data past) as [(r & _ & Hr200 & Hget)|(Href & e & report & Hrep & Hexit & Hget)].
  2: { match type of Href with refused ?a => set (answer := a) in * end.
       clearbody answer.
       right. eexists e, _. split; [by apply attempt_fetch|].
       by erewrite bind_raise by (unfold getTest; exact Hget). }
  erewrite bind_ok by (unfold getTest; exact Hget).
  fold (getTest_request subtask).
  set (sent := announce self GET_TEST ++ [EvRequest GET_TEST (getTest_request subtask) (Some r)]).
  destruct (check_output w (past ++ sent) (sol_args arguments) (encode (resp_text r)))
    as [out|e] eqn:Hout.
  2: { right. eexists e, _. split; [by apply (attempt_solve subtask r e)|].
       erewrite bind_raise by (unfold run_solver; cbn zeta; rewrite Hout; reflexivity).
       cbn [fst snd]. unfold sent. by rewrite <- app_assoc. }
  erewrite bind_ok by (unfold run_solver; cbn zeta; rewrite Hout; reflexivity).
  set (ran := [EvSubprocess (sol_args arguments) (encode (resp_text r)) (Ok out)]).
  destruct (callApi_cases SUBMIT {[ "Content-Type" := "text/plain" ]}
              (<["task" := PStr task]> {[ "subtask" := PInt subtask ]})
              no_data ((past ++ sent) ++ ran))
    as [(sr & _ & Hsr200 & Hsub)|(Href & e & report & Hrep & Hexit & Hsub)].
  2: { match type of Href with refused ?a => set (answer := a) in * end.
       clearbody answer.
       right. exists e. eexists. split; cycle 1.
       { erewrite bind_raise by (unfold submit; exact Hsub).
         cbn [fst snd]. unfold sent, ran. rewrite <- !app_assoc. reflexivity. }
       by apply attempt_submit. }
  erewrite bind_ok by (unfold submit; exact Hsub).
  fold (submit_request subtask).
  destruct (response_json sr ≫= verdict_line rt subtask) as [line|e] eqn:Hline.
  - left. unfold response_json in Hline.
    destruct (resp_json sr) as [resp|] eqn:Hjson; [|discriminate]. cbn in Hline.
    exists r, out, sr, resp, line. repeat (split; [done|]).
    erewrite bind_ok by (unfold lift, response_json; rewrite Hjson; reflexivity).
    erewrite bind_ok by (unfold lift; rewrite Hline; reflexivity).
    cbn [fst snd print emit app].
    unfold subtask_events, sent, ran. by rewrite <- !app_assoc.
  - right. eexists e, _. split; [by apply (attempt_verdict subtask r out sr e)|].
    unfold response_json in *.
    destruct (resp_json sr) as [resp|] eqn:Hjson; cbn in Hline.
    + erewrite bind_ok by (unfold lift; reflexivity).
      erewrite bind_raise by (unfold lift; rewrite Hline; reflexivity).
      cbn [fst snd]. unfold sent, ran. by rewrite !app_nil_r, <- !app_assoc.
    + injection Hline as <-.
      erewrite bind_raise by (unfold lift; reflexivity).
      cbn [fst snd]. unfold sent, ran. by rewrite !app_nil_r, <- !app_assoc.
Qed.

(** The loop over the subtasks [first], [first + 1], ...: either all of them
    go through, or some go through and the run ends in the next one. *)
Lemma run_loop_cases count first past :
  (exists es,
     visits (Z.of_nat <$> seq first count) es /\
     for_each (Z.of_nat <$> seq first count) (run_subtask rt w self arguments task) past
     = (Ok tt, es))
  \/
  (exists m es e tail,
     (m < count)%nat /\
     visits (Z.of_nat <$> seq first m) es /\
     attempt (Z.of_nat (first + m)) e tail /\
     for_each (Z.of_nat <$> seq first count) (run_subtask rt w self arguments task) past
     = (Raise e, es ++ tail)).
Proof.
  revert first past. induction count as [|count IH]; intros first past.
  - left. exists []. split; [constructor|reflexivity].
  - cbn [seq fmap list_fmap for_each].
    destruct (run_subtask_cases (Z.of_nat first) past)
      as [(r & out & sr & resp & line & Hr & Hsr & Hjson & Hline & Hrun)|(e & tail & Hatt & Hrun)].
    + set (block := subtask_events (Z.of_nat first) r out sr line) in *.
      destruct (IH (S first) (past ++ block))
        as [(es & Hvisits & Hloop)|(m & es & e & tail & Hlt & Hvisits & Hatt & Hloop)].
      * left. exists (block ++ es). split; [by econstructor|].
        erewrite bind_ok by exact Hrun. by rewrite Hloop.
      * right. exists (S m), (block ++ es), e, tail.
        split; [lia|]. split; [cbn [seq fmap list_fmap]; by econstructor|].
        split; [by replace (first + S m)%nat with (S first + m)%nat by lia|].
        erewrite bind_ok by exact Hrun. rewrite Hloop. cbn [fst snd].
        by rewrite <- app_assoc.
    + right. exists 0%nat, [], e, tail.
      split; [lia|]. split; [constructor|].
      split; [by rewrite Nat.add_0_r|].
      by erewrite bind_raise by exact Hrun.
Qed.

End RunFacts.

(** What can be read off a transcript: the calls with the subtask they name,
    the inputs the solver was run on, the verdict lines. *)
Definition call_seq (es : list event) : list (APIOperation * option pval) :=
  (fun c => (c.1, req_params c.2 !! "subtask")) <$> requests es.

Definition solver_inputs (es : list event) : list string :=
  omap (fun e => match e with
                 | EvSubprocess _ input _ => Some input
                 | _ => None
                 end) es.

Definition is_verdict_line (e : event) : bool :=
  match e with
  | EvPrint line => String.prefix "Podúloha " line
  | _ => false
  end.

Definition verdict_lines (es : list event) : list event := List.filter is_verdict_line es.

Lemma prefix_append p s : String.prefix p (p +:+ s) = true.
Proof.
  induction p as [|c p IH]; [by destruct s|].
  change (String.prefix (String c p) (String c p +:+ s))
    with (if ascii_dec c c then String.prefix p (p +:+ s) else false).
  destruct (ascii_dec c c); [exact IH|congruence].
Qed.

Section RunTranscript.

Context (rt : Runtime) (w : World) (self : KSPApiService) (arguments : Namespace).

Lemma verdict_line_prefix subtask resp line :
  verdict_line rt subtask resp = Ok line -> String.prefix "Podúloha " line = true.
Proof.
  unfold verdict_line. intros Hline.
  destruct (getitem resp "verdict"); [|discriminate].
  destruct (getitem resp "points"); [|discriminate].
  destruct (getitem resp "max_points"); [|discriminate].
  cbn in Hline. injection Hline as <-. apply prefix_append.
Qed.

Lemma announce_observed operation :
  call_seq (announce self operation) = [] /\
  solver_inputs (announce self operation) = [] /\
  verdict_lines (announce self operation) = [].
Proof. unfold announce. by destruct (verbose self). Qed.

Lemma call_seq_app es es' : call_seq (es ++ es') = call_seq es ++ call_seq es'.
Proof. unfold call_seq. by rewrite requests_app, fmap_app. Qed.

Lemma solver_inputs_app es es' :
  solver_inputs (es ++ es') = solver_inputs es ++ solver_inputs es'.
Proof. apply omap_app. Qed.

Lemma verdict_lines_app es es' :
  verdict_lines (es ++ es') = verdict_lines es ++ verdict_lines es'.
Proof. apply List.filter_app. Qed.

(** What one subtask contributes. *)
Lemma subtask_events_observed subtask input_response output verdict_response resp line :
  verdict_line rt subtask resp = Ok line ->
  let es := subtask_events self arguments subtask input_response output verdict_response line in
  call_seq es = [(GET_TEST, Some (PInt subtask)); (SUBMIT, Some (PInt subtask))] /\
  solver_inputs es = [encode (resp_text input_response)] /\
  verdict_lines es = [EvPrint line].
Proof.
  intros Hline es. subst es. unfold subtask_events.
  destruct (announce_observed GET_TEST) as (Hc1 & Hs1 & Hv1).
  destruct (announce_observed SUBMIT) as (Hc2 & Hs2 & Hv2).
  rewrite !call_seq_app, !solver_inputs_app, !verdict_lines_app.
  rewrite Hc1, Hc2, Hs1, Hs2, Hv1, Hv2.
  split; [|split; [reflexivity|]].
  - cbn. unfold call_seq. cbn.
    rewrite lookup_insert_ne, lookup_insert_eq by done.
    by rewrite lookup_insert_ne, lookup_singleton_eq by done.
  - cbn. by rewrite (verdict_line_prefix _ _ _ Hline).
Qed.

(** A loop that visits the subtasks calls get-test and submit once for each,
    in their order, runs the solver once for each, and prints one verdict
    line for each. *)
Lemma visits_observed indices es :
  visits rt self arguments indices es ->
  call_seq es
  = flat_map (fun i => [(GET_TEST, Some (PInt i)); (SUBMIT, Some (PInt i))]) indices /\
  List.length (solver_inputs es) = List.length indices /\
  List.length (verdict_lines es) = List.length indices.
Proof.
  induction 1 as [|subtask indices r out sr resp line rest _ _ Hjson Hline _ (IHc & IHs & IHv)].
  - by repeat split.
  - destruct (subtask_events_observed subtask r out sr resp line Hline) as (Hc & Hs & Hv).
    rewrite call_seq_app, solver_inputs_app, verdict_lines_app, Hc, Hs, Hv, IHc.
    rewrite !length_app, IHs, IHv. by repeat split.
Qed.

(** ** Steps that succeed *)

(** A submit answer that has what the verdict line shows. *)
Definition verdict_fields (resp : json) : Prop :=
  exists verdict points max_points,
    getitem resp "verdict" = Ok verdict /\
    getitem resp "points" = Ok points /\
    getitem resp "max_points" = Ok max_points.

(** A step of a run that succeeded: a call answered with status 200, a submit
    answer being JSON with a verdict, or a solver run that delivered its
    output.  Printing cannot fail. *)
Definition step_ok (e : event) : Prop :=
  match e with
  | EvRequest operation _ answer =>
      exists response,
        answer = Some response /\ status_code response = 200 /\
        (operation = SUBMIT ->
         exists resp, resp_json response = Some resp /\ verdict_fields resp)
  | EvSubprocess _ _ output => exists out, output = Ok out
  | _ => True
  end.

Lemma verdict_line_fields subtask resp :
  (exists line, verdict_line rt subtask resp = Ok line) <-> verdict_fields resp.
Proof.
  unfold verdict_line, verdict_fields. split.
  - intros [line Hline].
    destruct (getitem resp "verdict") as [v|]; [|discriminate].
    destruct (getitem resp "points") as [p|]; [|discriminate].
    destruct (getitem resp "max_points") as [mp|]; [|discriminate].
    by exists v, p, mp.
  - intros (v & p & mp & -> & -> & ->). by eexists.
Qed.

Lemma announce_steps_ok operation : Forall step_ok (announce self operation).
Proof. unfold announce. destruct (verbose self); by repeat constructor. Qed.

Lemma report_steps_ok report : is_report report -> Forall step_ok report.
Proof.
  intros Hrep. eapply Forall_impl; [exact Hrep|]. by intros e (line & -> & _).
Qed.

Lemma visits_steps_ok indices es :
  visits rt self arguments indices es -> Forall step_ok es.
Proof.
  induction 1 as [|subtask indices r out sr resp line rest Hr Hsr Hjson Hline _ IH];
    [constructor|].
  unfold subtask_events. rewrite <- !app_assoc.
  repeat (apply Forall_app; split); try apply announce_steps_ok; [| |exact IH].
  - repeat constructor; [by exists r|by exists out].
  - repeat constructor. exists sr. repeat split; [exact Hsr|].
    intros _. exists resp. split; [exact Hjson|].
    apply (verdict_line_fields subtask). by exists line.
Qed.

(** A subtask at which the run ends has a step that failed. *)
Lemma attempt_not_ok subtask e tail :
  attempt rt self arguments subtask e tail -> ~ Forall step_ok tail.
Proof.
  intros Hatt Hall.
  destruct Hatt as [answer e report Href _ _|r e _|r out answer e report _ Href _ _
                    |r out sr e _ Hsr Hline].
  - apply Forall_app in Hall as [_ Hall]. apply Forall_app in Hall as [Hall _].
    apply Forall_cons in Hall as [(response & Ha & H200 & _) _].
    exact (Href response Ha H200).
  - apply Forall_app in Hall as [_ Hall]. apply Forall_cons in Hall as [_ Hall].
    apply Forall_cons in Hall as [(out & Hout) _]. discriminate Hout.
  - apply Forall_app in Hall as [_ Hall]. apply Forall_app in Hall as [_ Hall].
    apply Forall_app in Hall as [_ Hall]. apply Forall_app in Hall as [Hall _].
    apply Forall_cons in Hall as [(response & Ha & H200 & _) _].
    exact (Href response Ha H200).
  - apply Forall_app in Hall as [_ Hall]. apply Forall_app in Hall as [_ Hall].
    apply Forall_app in Hall as [_ Hall].
    apply Forall_cons in Hall as [(response & Ha & _ & Hv) _].
    injection Ha as <-. destruct (Hv eq_refl) as (resp & Hjson & Hfields).
    apply (verdict_line_fields subtask) in Hfields as [line Hok].
    unfold response_json in Hline. rewrite Hjson in Hline. cbn in Hline. congruence.
Qed.

(** What the subtask at which the run ends contributes: its calls, and no
    verdict line. *)
Lemma attempt_observed subtask e tail :
  attempt rt self arguments subtask e tail ->
  verdict_lines tail = [] /\
  (List.length (solver_inputs tail) <= 1)%nat /\
  exists calls,
    call_seq tail = (GET_TEST, Some (PInt subtask)) :: calls /\
    (calls = [] \/ calls = [(SUBMIT, Some (PInt subtask))]).
Proof.
  assert (Hreport : forall report, is_report report ->
            call_seq report = [] /\ solver_inputs report = [] /\ verdict_lines report = []).
  { induction 1 as [|ev report (line & -> & Hline) _ (IHc & IHs & IHv)]; [done|].
    repeat split; [exact IHc|exact IHs|]. cbn. by rewrite Hline. }
  destruct (announce_observed GET_TEST) as (Hc1 & Hs1 & Hv1).
  destruct (announce_observed SUBMIT) as (Hc2 & Hs2 & Hv2).
  assert (Hget : forall answer,
            call_seq [EvRequest GET_TEST (getTest_request self arguments subtask) answer]
            = [(GET_TEST, Some (PInt subtask))]).
  { intros answer. unfold call_seq. cbn.
    by rewrite lookup_insert_ne, lookup_insert_eq by done. }
  assert (Hsub : forall answer,
            call_seq [EvRequest SUBMIT (submit_request self arguments subtask) answer]
            = [(SUBMIT, Some (PInt subtask))]).
  { intros answer. unfold call_seq. cbn.
    by rewrite lookup_insert_ne, lookup_singleton_eq by done. }
  intros [answer e' report _ Hrep _|r e' _|r out answer e' report _ _ Hrep _|r out sr e' _ _ _].
  - destruct (Hreport report Hrep) as (Hc & Hs & Hv).
    rewrite !call_seq_app, !solver_inputs_app, !verdict_lines_app.
    rewrite Hc1, Hs1, Hv1, Hc, Hs, Hv, Hget. cbn.
    split; [done|]. split; [lia|]. exists []. by split; [|left].
  - change [EvRequest GET_TEST (getTest_request self arguments subtask) (Some r);
            EvSubprocess (sol_args arguments) (encode (resp_text r)) (Raise e')]
      with ([EvRequest GET_TEST (getTest_request self arguments subtask) (Some r)]
            ++ [EvSubprocess (sol_args arguments) (encode (resp_text r)) (Raise e')]).
    rewrite !call_seq_app, !solver_inputs_app, !verdict_lines_app.
    rewrite Hc1, Hs1, Hv1, Hget. cbn.
    split; [done|]. split; [lia|]. exists []. by split; [|left].
  - destruct (Hreport report Hrep) as (Hc & Hs & Hv).
    change [EvRequest GET_TEST (getTest_request self arguments subtask) (Some r);
            EvSubprocess (sol_args arguments) (encode (resp_text r)) (Ok out)]
      with ([EvRequest GET_TEST (getTest_request self arguments subtask) (Some r)]
            ++ [EvSubprocess (sol_args arguments) (encode (resp_text r)) (Ok out)]).
    rewrite !call_seq_app, !solver_inputs_app, !verdict_lines_app.
    rewrite Hc1, Hs1, Hv1, Hc2, Hs2, Hv2, Hc, Hs, Hv, Hget, Hsub. cbn.
    split; [done|]. split; [lia|]. eexists. by split; [|right].
  - change [EvRequest GET_TEST (getTest_request self arguments subtask) (Some r);
            EvSubprocess (sol_args arguments) (encode (resp_text r)) (Ok out)]
      with ([EvRequest GET_TEST (getTest_request self arguments subtask) (Some r)]
            ++ [EvSubprocess (sol_args arguments) (encode (resp_text r)) (Ok out)]).
    rewrite !call_seq_app, !solver_inputs_app, !verdict_lines_app.
    rewrite Hc1, Hs1, Hv1, Hc2, Hs2, Hv2, Hget, Hsub. cbn.
    split; [done|]. split; [lia|]. eexists. by split; [|right].
Qed.

(** The run after a status call that reports [n] subtasks: it visits all of
    them, or it visits the first [m] and ends in the next one. *)
Lemma handleRun_cases past status_response n :
  http_send w (past ++ announce self STATUS) (status_request self arguments)
    = Some status_response ->
  status_code status_response = 200 ->
  number_of_subtasks status_response = Ok n ->
  let sent := announce self STATUS
              ++ [EvRequest STATUS (status_request self arguments) (Some status_response)] in
  (exists rest,
     visits rt self arguments (range1 n) rest /\
     handleRun rt w self arguments past = (Ok tt, sent ++ rest))
  \/
  (exists m rest e tail,
     (m < n)%nat /\
     visits rt self arguments (range1 m) rest /\
     attempt rt self arguments (Z.of_nat (S m)) e tail /\
     handleRun rt w self arguments past = (Raise e, sent ++ rest ++ tail)).
Proof.
  intros Hsend Hstatus Hn sent.
  assert (Hrun : forall r es,
    for_each (range1 n) (run_subtask rt w self arguments (arg_task arguments))
      ((past ++ sent) ++ []) = (r, es) ->
    handleRun rt w self arguments past = (r, sent ++ es)).
  { intros r es Hloop. unfold handleRun. cbn zeta.
    erewrite bind_ok by (unfold getStatus; apply callApi_ok; [exact Hsend|exact Hstatus]).
    fold (status_request self arguments). fold sent.
    erewrite bind_ok by (unfold lift; rewrite Hn; reflexivity).
    by rewrite Hloop. }
  destruct (run_loop_cases rt w self arguments n 1 ((past ++ sent) ++ []))
    as [(es & Hvisits & Hloop)|(m & es & e & tail & Hlt & Hvisits & Hatt & Hloop)].
  - left. exists es. split; [exact Hvisits|]. by apply Hrun.
  - right. exists m, es, e, tail. repeat (split; [done|]). by apply Hrun.
Qed.

Lemma sent_steps_ok status_response :
  status_code status_response = 200 ->
  Forall step_ok
    (announce self STATUS
     ++ [EvRequest STATUS (status_request self arguments) (Some status_response)]).
Proof.
  intros Hstatus. apply Forall_app. split; [apply announce_steps_ok|].
  repeat constructor. exists status_response. by repeat split.
Qed.

(** C2, as the code has it.  After a status call that reports [n] subtasks:
    when every get-test call, solver run and submit call of the run succeeds,
    the run ends normally after visiting the subtasks 1 to [n] in this
    order, for each one get-test, then the solver on the text fetched, then
    submit, then its verdict line, so that get-test and submit are called
    [n] times each, the solver runs [n] times and [n] verdict lines are
    printed; when a step fails, the run ends in that subtask with the
    exception raised there: the subtasks before it were visited in full,
    only their verdict lines are printed, and no later subtask is tried. *)
Theorem handleRun_visits_every_subtask past status_response n :
  http_send w (past ++ announce self STATUS) (status_request self arguments)
    = Some status_response ->
  status_code status_response = 200 ->
  number_of_subtasks status_response = Ok n ->
  let result := handleRun rt w self arguments past in
  (Forall step_ok result.2 ->
     result.1 = Ok tt /\
     run_visits_all rt self arguments n result.2 /\
     call_seq result.2
     = (STATUS, None)
       :: flat_map (fun i => [(GET_TEST, Some (PInt i)); (SUBMIT, Some (PInt i))]) (range1 n) /\
     List.length (solver_inputs result.2) = n /\
     List.length (verdict_lines result.2) = n) /\
  (~ Forall step_ok result.2 ->
     exists m rest e tail,
       (m < n)%nat /\
       result = (Raise e,
                 announce self STATUS
                 ++ [EvRequest STATUS (status_request self arguments) (Some status_response)]
                 ++ rest ++ tail) /\
       visits rt self arguments (range1 m) rest /\
       attempt rt self arguments (Z.of_nat (S m)) e tail /\
       List.length (verdict_lines result.2) = m).
Proof.
  intros Hsend Hstatus Hn result.
  set (sent := announce self STATUS
               ++ [EvRequest STATUS (status_request self arguments) (Some status_response)]).
  pose proof (sent_steps_ok status_response Hstatus) as Hsent. fold sent in Hsent.
  destruct (announce_observed STATUS) as (Hc0 & Hs0 & Hv0).
  destruct (handleRun_cases past status_response n Hsend Hstatus Hn)
    as [(rest & Hvisits & Hrun)|(m & rest & e & tail & Hlt & Hvisits & Hatt & Hrun)];
    fold sent in Hrun; subst result; rewrite Hrun; cbn [fst snd].
  - destruct (visits_observed _ _ Hvisits) as (Hc & Hs & Hv).
    split.
    + intros _. split; [reflexivity|]. split.
      { exists status_response, rest. unfold sent. rewrite <- app_assoc. by repeat split. }
      unfold sent. rewrite !call_seq_app, !solver_inputs_app, !verdict_lines_app.
      rewrite Hc0, Hs0, Hv0, Hc, !length_app, Hs, Hv.
      unfold range1. rewrite length_fmap, length_seq.
      split; [|by split].
      unfold call_seq. cbn. by rewrite lookup_singleton_ne by done.
    + intros Hnot. destruct Hnot. apply Forall_app. split; [exact Hsent|].
      exact (visits_steps_ok _ _ Hvisits).
  - split.
    + intros Hall. apply Forall_app in Hall as [_ Hall]. apply Forall_app in Hall as [_ Hall].
      by destruct (attempt_not_ok _ _ _ Hatt).
    + intros _. exists m, rest, e, tail. split; [exact Hlt|].
      split; [unfold sent; by rewrite <- app_assoc|]. split; [exact Hvisits|].
      split; [exact Hatt|].
      destruct (visits_observed _ _ Hvisits) as (_ & _ & Hv).
      destruct (attempt_observed _ _ _ Hatt) as (Hvt & _).
      unfold sent. rewrite !verdict_lines_app, Hv0, Hvt, !length_app, Hv.
      unfold range1. rewrite length_fmap, length_seq. cbn. lia.
Qed.

End RunTranscript.

Lemma run_visits_all_solver rt self arguments n es :
  run_visits_all rt self arguments n es -> List.length (solver_inputs es) = n.
Proof.
  intros (status_response & rest & -> & _ & Hvisits).
  destruct (visits_observed rt self arguments _ _ Hvisits) as (_ & Hs & _).
  destruct (announce_observed self STATUS) as (_ & Hs0 & _).
  rewrite !solver_inputs_app, Hs0, !length_app, Hs.
  unfold range1. by rewrite length_fmap, length_seq.
Qed.

(** The server refuses to generate the input of the first subtask. *)
Definition refusal : Response :=
  mkResponse 403 Session.json_headers ""
    (Some (JObj {[ "errorMsg" := JStr "Vstup nelze vygenerovat" ]})).

(** The status call reports three subtasks, the first get-test call is
    refused: the run stops there, with no solver run, no submit and no
    verdict line. *)
Lemma handleRun_stops_at_refusal :
  let w := Session.world_answering refusal in
  let result := handleRun Session.rt w Session.service Session.run_arguments [] in
  http_send w [] (status_request Session.service Session.run_arguments)
    = Some Session.status_response /\
  number_of_subtasks Session.status_response = Ok 3%nat /\
  result.1 = Raise (SystemExit 1) /\
  call_seq result.2 = [(STATUS, None); (GET_TEST, Some (PInt 1))] /\
  solver_inputs result.2 = [] /\
  verdict_lines result.2 = [] /\
  ~ run_visits_all Session.rt Session.service Session.run_arguments 3 result.2.
Proof.
  cbn zeta. repeat (split; [reflexivity|]).
  intros Hall%run_visits_all_solver. discriminate Hall.
Qed.

Example session_run :
  (handleRun Session.rt Session.w Session.service Session.run_arguments []).2
  = [ EvRequest STATUS (status_request Session.service Session.run_arguments)
        (Some Session.status_response);
      EvRequest GET_TEST (getTest_request Session.service Session.run_arguments 1)
        (Some Session.input_response);
      EvSubprocess ["python3"; "solver.py"] "3 1 2 3" (Ok "6");
      EvRequest SUBMIT (submit_request Session.service Session.run_arguments 1)
        (Some Session.verdict_response);
      EvPrint "Podúloha 1: OK (2/2b)";
      EvRequest GET_TEST (getTest_request Session.service Session.run_arguments 2)
        (Some Session.input_response);
      EvSubprocess ["python3"; "solver.py"] "3 1 2 3" (Ok "6");
      EvRequest SUBMIT (submit_request Session.service Session.run_arguments 2)
        (Some Session.verdict_response);
      EvPrint "Podúloha 2: OK (2/2b)";
      EvRequest GET_TEST (getTest_request Session.service Session.run_arguments 3)
        (Some Session.input_response);
      EvSubprocess ["python3"; "solver.py"] "3 1 2 3" (Ok "6");
      EvRequest SUBMIT (submit_request Session.service Session.run_arguments 3)
        (Some Session.verdict_response);
      EvPrint "Podúloha 3: OK (2/2b)" ].
Proof. reflexivity. Qed.

(** In the session every step succeeds. *)
Lemma session_steps_ok :
  Forall step_ok
    (handleRun Session.rt Session.w Session.service Session.run_arguments []).2.
Proof.
  rewrite session_run.
  assert (Hverdict : exists resp,
            resp_json Session.verdict_response = Some resp /\ verdict_fields resp).
  { exists Session.verdict_body. split; [reflexivity|].
    exists (JStr "OK"), (JNum 2), (JNum 2). repeat split; reflexivity. }
  repeat constructor;
    first [ eexists; split; [reflexivity|split; [reflexivity|intros _; exact Hverdict]]
          | eexists; split; [reflexivity|split; [reflexivity|discriminate]]
          | eexists; reflexivity ].
Defined.

(** The transcript of the run whose first get-test call is refused. *)
Example refused_run :
  (handleRun Session.rt (Session.world_answering refusal) Session.service
     Session.run_arguments []).2
  = [ EvRequest STATUS (status_request Session.service Session.run_arguments)
        (Some Session.status_response);
      EvRequest GET_TEST (getTest_request Session.service Session.run_arguments 1)
        (Some refusal);
      EvPrint "Stránka KSP nepřijala tvůj požadavek: Vstup nelze vygenerovat" ].
Proof. reflexivity. Qed.

Lemma refused_run_not_ok :
  ~ Forall step_ok
      (handleRun Session.rt (Session.world_answering refusal) Session.service
         Session.run_arguments []).2.
Proof.
  rewrite refused_run. intros Hall.
  apply Forall_cons in Hall as [_ Hall].
  apply Forall_cons in Hall as [(response & Ha & H200 & _) _].
  injection Ha as <-. discriminate H200.
Defined.

Lemma handleRun_visits_every_subtask_witness :
  (let result := handleRun Session.rt Session.w Session.service Session.run_arguments [] in
   result.1 = Ok tt /\
   run_visits_all Session.rt Session.service Session.run_arguments 3 result.2 /\
   call_seq result.2
   = (STATUS, None)
     :: flat_map (fun i => [(GET_TEST, Some (PInt i)); (SUBMIT, Some (PInt i))]) (range1 3) /\
   List.length (solver_inputs result.2) = 3%nat /\
   List.length (verdict_lines result.2) = 3%nat) /\
  (let result := handleRun Session.rt (Session.world_answering refusal) Session.service
                   Session.run_arguments [] in
   exists m rest e tail,
     (m < 3)%nat /\
     result = (Raise e,
               announce Session.service STATUS
               ++ [EvRequest STATUS (status_request Session.service Session.run_arguments)
                     (Some Session.status_response)]
               ++ rest ++ tail) /\
     visits Session.rt Session.service Session.run_arguments (range1 m) rest /\
     attempt Session.rt Session.service Session.run_arguments (Z.of_nat (S m)) e tail /\
     List.length (verdict_lines result.2) = m).
Proof.
  split.
  - apply (proj1 (handleRun_visits_every_subtask Session.rt Session.w Session.service
                    Session.run_arguments [] Session.status_response 3
                    eq_refl eq_refl eq_refl)).
    exact session_steps_ok.
  - apply (proj2 (handleRun_visits_every_subtask Session.rt (Session.world_answering refusal)
                    Session.service Session.run_arguments [] Session.status_response 3
                    eq_refl eq_refl eq_refl)).
    exact refused_run_not_ok.
Defined.

(** * Further properties of the client *)

(** ** How a call ends *)

Section CallOutcomes.

Context (rt : Runtime) (w : World).

(** Every way through the non-200 branch raises, and the process ends with
    status 1: on [sys.exit(1)] or on the exception that escapes. *)
Lemma reject_raises {A : Type} self response past :
  exists e, (reject (A := A) rt self response past).1 = Raise e /\
            exit_status (Raise e : outcome A) = 1.
Proof.
  rewrite reject_run.
  destruct (resp_headers response !! "content-type") as [ct|]; [|by eexists].
  destruct (String.eqb ct "application/json").
  - unfold response_json. destruct (resp_json response) as [body|]; [|by eexists].
    cbn. unfold getitem. destruct body as [| | | | |o]; try (by eexists).
    destruct (o !! "errorMsg"); by eexists.
  - destruct (verbose self); by eexists.
Qed.

(** X1. [callApi] returns to its caller exactly when the server answered
    with status 200, and then it returns that answer; in every other case
    (no connection, any other status, whatever the headers and body) it
    raises, and the process ends with status 1. *)
Theorem callApi_returns_iff_200 self operation eh ep data past :
  let result := callApi rt w self operation eh ep data past in
  (forall response,
     result.1 = Ok response <->
     http_send w (past ++ announce self operation) (request_of self operation eh ep data)
       = Some response /\ status_code response = 200) /\
  (forall e, result.1 = Raise e -> exit_status (Raise e : outcome Response) = 1).
Proof.
  cbn zeta. rewrite callApi_run. cbn zeta.
  destruct (http_send w _ _) as [answer|].
  - destruct (bool_decide_reflect (status_code answer ≠ 200)) as [Hne|Heq].
    + pose proof (reject_raises (A := Response) self answer
        (past ++ announce self operation ++
           [EvRequest operation (request_of self operation eh ep data) (Some answer)]))
        as (e & He & Hexit).
      destruct (reject _ _ _ _) as [r es]. cbn [fst] in *. subst r. split.
      * intros response. split; [discriminate|]. intros [[= ->] H200]. by destruct Hne.
      * by intros e' [= <-].
    + apply dec_stable in Heq. cbn [fst]. split; [|discriminate].
      intros response. split; [by intros [= ->]|]. by intros [[= ->] _].
  - cbn [fst]. split; [|by intros e [= <-]].
    intros response. split; [discriminate|]. by intros [[=] _].
Qed.

(** X2. When the connection fails, [callApi] has sent the one request, prints
    its two lines and exits with status 1: there is no second attempt. *)
Theorem callApi_connection_error self operation eh ep data past :
  http_send w (past ++ announce self operation) (request_of self operation eh ep data) = None ->
  callApi rt w self operation eh ep data past
  = (Raise (SystemExit 1),
     announce self operation
     ++ [EvRequest operation (request_of self operation eh ep data) None;
         EvPrint "Klient se nedokázal připojit ke stránkám KSP";
         EvPrint "Jsi připojen k internetu?"]).
Proof.
  intros Hsend. rewrite callApi_run. cbn zeta. rewrite Hsend.
  by rewrite <- app_assoc.
Qed.

(** X3. A non-200 answer that announces JSON but carries none, or JSON
    without [errorMsg], is not reported at all: decoding raises
    [JSONDecodeError], the missing key raises [KeyError], a body that is not
    an object raises [TypeError], and nothing is printed after the
    request. *)
Theorem callApi_error_without_message self operation eh ep data past response :
  http_send w (past ++ announce self operation) (request_of self operation eh ep data)
    = Some response ->
  status_code response <> 200 ->
  resp_headers response !! "content-type" = Some "application/json" ->
  let sent := announce self operation
              ++ [EvRequest operation (request_of self operation eh ep data) (Some response)] in
  let result := callApi rt w self operation eh ep data past in
  (resp_json response = None -> result = (Raise JSONDecodeError, sent)) /\
  (forall o : gmap string json,
     resp_json response = Some (JObj o) -> o !! "errorMsg" = None ->
     result = (Raise (KeyError "errorMsg"), sent)) /\
  (forall body,
     resp_json response = Some body -> (forall o, body <> JObj o) ->
     result = (Raise TypeError, sent)).
Proof.
  intros Hsend Hstatus Hct sent result. subst result.
  rewrite callApi_run. cbn zeta. rewrite Hsend, bool_decide_true by exact Hstatus.
  rewrite reject_run, Hct. cbn [String.eqb]. fold sent.
  change (String.eqb "application/json" "application/json") with true. cbn iota.
  unfold response_json. repeat split.
  - intros ->. cbn. by rewrite app_nil_r.
  - intros o -> Hkey. cbn. rewrite Hkey. by rewrite app_nil_r.
  - intros body -> Hobj. cbn.
    destruct body as [| | | | |o]; cbn; first [by rewrite app_nil_r | by destruct (Hobj o)].
Qed.

End CallOutcomes.

(** X4. The lookups of [APIOperation] never take their [else] branch: for
    each of the five members [getURL] and [getHTTPMethod] return without
    printing or exiting, and no two members share a path. *)
Theorem operation_lookups_total operation past :
  (exists url, getURL operation past = (Ok url, [])) /\
  (exists method, getHTTPMethod operation past = (Ok method, [])) /\
  (forall operation' url,
     getURL operation past = (Ok url, []) -> getURL operation' past = (Ok url, []) ->
     operation = operation').
Proof.
  split; [|split].
  - rewrite getURL_total. by eexists.
  - rewrite getHTTPMethod_total. by eexists.
  - intros operation' url. rewrite !getURL_total.
    destruct operation, operation'; intros [= <-] [=]; reflexivity.
Qed.

(** A machine without network, and one where the token was never saved. *)
Definition offline_world : World :=
  {| http_send := fun _ _ => None;
     check_output := check_output Session.w;
     home := home Session.w;
     token_file := token_file Session.w;
     clock := clock Session.w |}.

Definition tokenless_world : World :=
  {| http_send := http_send Session.w;
     check_output := check_output Session.w;
     home := home Session.w;
     token_file := fun _ => None;
     clock := clock Session.w |}.

(** An error answer in JSON that has a [detail] where the client looks for
    [errorMsg]. *)
Definition foreign_error : Response :=
  mkResponse 400 Session.json_headers ""
    (Some (JObj {[ "detail" := JStr "Bad Request" ]})).

Lemma callApi_connection_error_witness :
  callApi Session.rt offline_world Session.service LIST no_headers no_params no_data []
  = (Raise (SystemExit 1),
     [EvRequest LIST (request_of Session.service LIST no_headers no_params no_data) None;
      EvPrint "Klient se nedokázal připojit ke stránkám KSP";
      EvPrint "Jsi připojen k internetu?"]).
Proof.
  apply (callApi_connection_error Session.rt offline_world Session.service LIST
           no_headers no_params no_data []).
  reflexivity.
Defined.

Lemma callApi_error_without_message_witness :
  callApi Session.rt (Session.world_answering foreign_error) Session.service
    GET_TEST no_headers no_params no_data []
  = (Raise (KeyError "errorMsg"),
     [EvRequest GET_TEST (request_of Session.service GET_TEST no_headers no_params no_data)
        (Some foreign_error)]).
Proof.
  refine (proj1 (proj2 (callApi_error_without_message Session.rt
                          (Session.world_answering foreign_error) Session.service GET_TEST
                          no_headers no_params no_data [] foreign_error _ _ _))
            {[ "detail" := JStr "Bad Request" ]} _ _).
  - reflexivity.
  - cbn. lia.
  - reflexivity.
  - reflexivity.
  - reflexivity.
Defined.

(** ** The script as a whole *)

(** The shape of every request a command sends for the client [self]: it is
    built by [callApi] from the client, carries no data, and has an extra
    header only for [submit]. *)
Definition well_shaped (self : KSPApiService) (operation : APIOperation)
    (request : Request) : Prop :=
  operation <> GENERATE /\
  exists ep,
    request = request_of self operation
                (if decide (operation = SUBMIT)
                 then {[ "Content-Type" := "text/plain" ]} else no_headers)
                ep no_data.

Ltac shape_step :=
  first [ solve [auto with sends]
        | simple apply sends_only_callApi; split; [discriminate|eexists; reflexivity]
        | simple apply sends_only_for_each; intros ?
        | simple apply sends_only_bind; [|intros ?] ].

Section ScriptFacts.

Context (rt : Runtime) (w : World).

Lemma handlers_well_shaped name handler :
  find_operation name (operations rt w) = Some handler ->
  forall self arguments, sends_only (well_shaped self) (handler self arguments).
Proof.
  intros Hfind self arguments. cbn in Hfind.
  repeat case_match; simplify_eq.
  - unfold handleList, getList, printNiceJson. repeat shape_step.
  - unfold handleStatus, getStatus, printTableStatus, printTableRow. repeat shape_step.
  - unfold handleSubmit, submit, printNiceJson. repeat shape_step.
  - unfold handleGenerate, getTest. repeat shape_step.
  - unfold handleRun, run_subtask, getStatus, getTest, submit. repeat shape_step.
Qed.

(** What [main] does after the client has been built. *)
Lemma main_run arguments past :
  main rt w arguments past =
  match token_file w (default_token_path w) with
  | None =>
      (Raise (SystemExit 1),
       [EvPrint ("Soubor " +:+ default_token_path w +:+ " neexistuje")])
  | Some token =>
      let self := {| api_url := default default_api_url (arg_api_url arguments);
                     token_path := default_token_path w;
                     headers := {[ "Authorization" := "Bearer " +:+ token ]};
                     training_ground := arg_cviciste arguments;
                     verbose := arg_verbose arguments |} in
      match operation_name arguments with
      | None => (Ok tt, [EvHelp])
      | Some name =>
          match find_operation name (operations rt w) with
          | Some handler => handler self arguments past
          | None => (Raise (KeyError name), [])
          end
      end
  end.
Proof.
  unfold main, KSPApiService_init, fileExists. cbn [default].
  destruct (token_file w (default_token_path w)) as [token|]; [|reflexivity].
  run_M. cbn [default app]. rewrite app_nil_r.
  destruct (operation_name arguments) as [name|]; [|reflexivity].
  destruct (find_operation name (operations rt w)) as [handler|]; [|reflexivity].
  by destruct (handler _ arguments past).
Qed.

(** X5. Without the token file nothing is done, whatever the subcommand:
    the script names the missing file and exits with status 1 before any
    request. *)
Theorem main_without_token arguments past :
  token_file w (default_token_path w) = None ->
  main rt w arguments past
  = (Raise (SystemExit 1),
     [EvPrint ("Soubor " +:+ default_token_path w +:+ " neexistuje")]).
Proof. intros Hfile. by rewrite main_run, Hfile. Qed.

(** X6. Called without a subcommand, and the token file being there, the
    script shows the help of the parser and ends normally; it contacts no
    server. *)
Theorem main_without_subcommand arguments past token :
  token_file w (default_token_path w) = Some token ->
  operation_name arguments = None ->
  main rt w arguments past = (Ok tt, [EvHelp]).
Proof. intros Hfile Hname. by rewrite main_run, Hfile, Hname. Qed.

(** X7. Every request the script sends, in any command and whatever the
    answers, goes to the base address chosen on the command line (the KSP
    server when none is given) followed by the path of its operation, by the
    method of the operation, with the token of the file as bearer token, with
    no data, and with a [Content-Type] header only for a submit; none is a
    request of the operation [GENERATE]. *)
Theorem main_requests_well_formed arguments past operation request answer :
  EvRequest operation request answer ∈ (main rt w arguments past).2 ->
  exists token path,
    token_file w (default_token_path w) = Some token /\
    getURL operation [] = (Ok path, []) /\
    getHTTPMethod operation [] = (Ok (req_method request), []) /\
    req_url request = default default_api_url (arg_api_url arguments) +:+ path /\
    req_headers request !! "Authorization" = Some ("Bearer " +:+ token) /\
    req_headers request !! "Content-Type"
      = (if decide (operation = SUBMIT) then Some "text/plain" else None) /\
    req_data request = DataDict ∅ /\
    operation <> GENERATE.
Proof.
  rewrite main_run.
  destruct (token_file w (default_token_path w)) as [token|]; cbn zeta.
  2: { cbn. intros Hin. apply list_elem_of_singleton in Hin. discriminate Hin. }
  destruct (operation_name arguments) as [name|].
  2: { cbn. intros Hin. apply list_elem_of_singleton in Hin. discriminate Hin. }
  destruct (find_operation name (operations rt w)) as [handler|] eqn:Hfind.
  2: { cbn. intros Hin. inversion Hin. }
  intros Hin%elem_of_requests.
  pose proof (handlers_well_shaped name handler Hfind) as Hall.
  match type of Hin with
  | context [handler ?self arguments past] => specialize (Hall self arguments past)
  end.
  rewrite Forall_forall in Hall.
  destruct (Hall _ Hin) as (Hop & ep & Hreq). cbn [fst snd] in *. subst request.
  exists token, (path_of operation).
  split; [reflexivity|]. split; [by rewrite getURL_total|].
  split; [by rewrite getHTTPMethod_total|]. split; [reflexivity|].
  cbn [req_headers req_data request_of headers].
  destruct (decide (operation = SUBMIT)) as [->|Hne]; unfold no_headers, no_data.
  - split; [|by rewrite lookup_union_l, lookup_singleton_eq by done].
    rewrite lookup_union_r by done. apply lookup_singleton_eq.
  - rewrite (left_id_L ∅ (∪)).
    split; [apply lookup_singleton_eq|]. by rewrite lookup_singleton_ne.
Qed.

End ScriptFacts.

Definition bare_arguments : Namespace :=
  {| arg_verbose := false; arg_cviciste := false; arg_api_url := None;
     operation_name := None; arg_task := ""; arg_subtask := 0;
     arg_file := ""; sol_args := [] |}.

Lemma main_without_token_witness :
  main Session.rt tokenless_world Session.run_arguments []
  = (Raise (SystemExit 1), [EvPrint "Soubor /home/ksp/.config/ksp-api-token neexistuje"]).
Proof.
  apply (main_without_token Session.rt tokenless_world Session.run_arguments []).
  reflexivity.
Defined.

Lemma main_without_subcommand_witness :
  main Session.rt Session.w bare_arguments [] = (Ok tt, [EvHelp]).
Proof.
  apply (main_without_subcommand Session.rt Session.w bare_arguments [] "0123456789abcdef");
    reflexivity.
Defined.

Lemma main_requests_well_formed_witness :
  exists token path,
    token_file Session.w (default_token_path Session.w) = Some token /\
    getURL STATUS [] = (Ok path, []) /\
    getHTTPMethod STATUS []
      = (Ok (req_method (status_request Session.service Session.run_arguments)), []) /\
    req_url (status_request Session.service Session.run_arguments)
      = default default_api_url (arg_api_url Session.run_arguments) +:+ path /\
    req_headers (status_request Session.service Session.run_arguments) !! "Authorization"
      = Some ("Bearer " +:+ token) /\
    req_headers (status_request Session.service Session.run_arguments) !! "Content-Type"
      = (if decide (STATUS = SUBMIT) then Some "text/plain" else None) /\
    req_data (status_request Session.service Session.run_arguments) = DataDict ∅ /\
    STATUS <> GENERATE.
Proof.
  apply (main_requests_well_formed Session.rt Session.w Session.run_arguments [] STATUS
           (status_request Session.service Session.run_arguments)
           (Some Session.status_response)).
  apply list_elem_of_here.
Defined.

(** ** Runs that end early *)

Lemma for_each_app {A : Type} (l1 l2 : list A) (body : A -> M unit) past es :
  for_each l1 body past = (Ok tt, es) ->
  for_each (l1 ++ l2) body past
  = ((for_each l2 body (past ++ es)).1, es ++ (for_each l2 body (past ++ es)).2).
Proof.
  revert past es. induction l1 as [|x l1 IH]; intros past es Hrun.
  - cbn in Hrun. injection Hrun as <-. cbn [app]. rewrite app_nil_r.
    by destruct (for_each l2 body past).
  - cbn [for_each app] in *. unfold mbind, M_bind in *.
    destruct (body x past) as [[[]|e] es1]; [|discriminate].
    destruct (for_each l1 body (past ++ es1)) as [r es2] eqn:Hrest.
    injection Hrun as -> <-.
    rewrite (IH _ _ Hrest). cbn [fst snd]. by rewrite !app_assoc.
Qed.

Section EarlyEnd.

Context (rt : Runtime) (w : World) (self : KSPApiService) (arguments : Namespace).

(** The lines of a report are no requests, no solver runs and no verdict
    lines. *)
Lemma report_observed report :
  is_report report ->
  call_seq report = [] /\ solver_inputs report = [] /\ verdict_lines report = [].
Proof.
  induction 1 as [|ev report (line & -> & Hline) _ (IHc & IHs & IHv)]; [done|].
  repeat split; [exact IHc|exact IHs|]. cbn. by rewrite Hline.
Qed.

Lemma getTest_request_inj subtask subtask' :
  getTest_request self arguments subtask = getTest_request self arguments subtask' ->
  subtask = subtask'.
Proof.
  intros Heq. apply (f_equal (fun request => req_params request !! "subtask")) in Heq.
  cbn in Heq. rewrite !(lookup_insert_ne _ "task" "subtask") in Heq by done.
  rewrite !lookup_insert_eq in Heq. by injection Heq.
Qed.

(** Among steps that succeeded there is no refused call. *)
Lemma steps_ok_not_refused es operation request answer :
  Forall step_ok es -> EvRequest operation request answer ∈ es -> refused answer -> False.
Proof.
  intros Hall Hin Href. rewrite Forall_forall in Hall.
  destruct (Hall _ Hin) as (response & Ha & H200 & _). exact (Href response Ha H200).
Qed.

(** When the get-test call found refused in the transcript of the subtask
    where the run ends, that subtask ended with this call. *)
Lemma attempt_refused_fetch subtask' e tail subtask answer :
  attempt rt self arguments subtask' e tail ->
  EvRequest GET_TEST (getTest_request self arguments subtask) answer ∈ tail ->
  refused answer ->
  subtask = subtask' /\
  exit_status (Raise e : outcome unit) = 1 /\
  call_seq tail = [(GET_TEST, Some (PInt subtask'))] /\
  solver_inputs tail = [] /\
  verdict_lines tail = [].
Proof.
  intros Hatt Hin Href.
  pose proof (announce_steps_ok self GET_TEST) as Hann1.
  pose proof (announce_steps_ok self SUBMIT) as Hann2.
  destruct Hatt as [answer' e report Href' Hrep Hexit|r e Hr|r out answer' e report Hr _ Hrep _
                    |r out sr e Hr _ _].
  - apply elem_of_app in Hin as [Hin|Hin];
      [by destruct (steps_ok_not_refused _ _ _ _ Hann1 Hin Href)|].
    apply elem_of_cons in Hin as [Hin|Hin];
      [|by destruct (steps_ok_not_refused _ _ _ _ (report_steps_ok _ Hrep) Hin Href)].
    assert (Hreq : getTest_request self arguments subtask
                   = getTest_request self arguments subtask') by congruence.
    apply getTest_request_inj in Hreq as ->.
    split; [reflexivity|]. split; [exact Hexit|].
    destruct (announce_observed self GET_TEST) as (Hc1 & Hs1 & Hv1).
    destruct (report_observed report Hrep) as (Hc & Hs & Hv).
    rewrite !call_seq_app, !solver_inputs_app, !verdict_lines_app.
    rewrite Hc1, Hs1, Hv1, Hc, Hs, Hv.
    split; [|by split].
    unfold call_seq. cbn. by rewrite lookup_insert_ne, lookup_insert_eq by done.
  - exfalso. apply elem_of_app in Hin as [Hin|Hin];
      [by destruct (steps_ok_not_refused _ _ _ _ Hann1 Hin Href)|].
    apply elem_of_cons in Hin as [Hin|Hin];
      [assert (answer = Some r) as Ha by congruence; by apply (Href r)|].
    apply list_elem_of_singleton in Hin. discriminate Hin.
  - exfalso. apply elem_of_app in Hin as [Hin|Hin];
      [by destruct (steps_ok_not_refused _ _ _ _ Hann1 Hin Href)|].
    apply elem_of_cons in Hin as [Hin|Hin];
      [assert (answer = Some r) as Ha by congruence; by apply (Href r)|].
    apply elem_of_cons in Hin as [Hin|Hin]; [discriminate Hin|].
    apply elem_of_app in Hin as [Hin|Hin];
      [by destruct (steps_ok_not_refused _ _ _ _ Hann2 Hin Href)|].
    apply elem_of_cons in Hin as [Hin|Hin]; [discriminate Hin|].
    by destruct (steps_ok_not_refused _ _ _ _ (report_steps_ok _ Hrep) Hin Href).
  - exfalso. apply elem_of_app in Hin as [Hin|Hin];
      [by destruct (steps_ok_not_refused _ _ _ _ Hann1 Hin Href)|].
    apply elem_of_cons in Hin as [Hin|Hin];
      [assert (answer = Some r) as Ha by congruence; by apply (Href r)|].
    apply elem_of_cons in Hin as [Hin|Hin]; [discriminate Hin|].
    apply elem_of_app in Hin as [Hin|Hin];
      [by destruct (steps_ok_not_refused _ _ _ _ Hann2 Hin Href)|].
    apply list_elem_of_singleton in Hin. discriminate Hin.
Qed.

(** X8. When the status call reports no subtask, the run is over after this
    one call: no test is fetched, the solver is not started, nothing is
    submitted or printed, and the command ends normally. *)
Theorem handleRun_without_subtasks past status_response :
  http_send w (past ++ announce self STATUS) (status_request self arguments)
    = Some status_response ->
  status_code status_response = 200 ->
  number_of_subtasks status_response = Ok 0%nat ->
  handleRun rt w self arguments past
  = (Ok tt,
     announce self STATUS
     ++ [EvRequest STATUS (status_request self arguments) (Some status_response)]).
Proof.
  intros Hsend Hstatus Hn. unfold handleRun. cbn zeta.
  erewrite bind_ok by (unfold getStatus; apply callApi_ok; [exact Hsend|exact Hstatus]).
  erewrite bind_ok by (unfold lift; rewrite Hn; reflexivity).
  cbn. by rewrite !app_nil_r.
Qed.

(** X9. When the get-test call of a subtask is refused in a run (no
    connection, or another status than 200), the run ends there with status
    1: the subtasks before it have been visited in full, the refused call is
    the last request, and neither this subtask nor a later one sees the
    solver, a submit or a verdict line. *)
Theorem handleRun_stops_when_refused past status_response n subtask answer :
  http_send w (past ++ announce self STATUS) (status_request self arguments)
    = Some status_response ->
  status_code status_response = 200 ->
  number_of_subtasks status_response = Ok n ->
  let result := handleRun rt w self arguments past in
  EvRequest GET_TEST (getTest_request self arguments subtask) answer ∈ result.2 ->
  refused answer ->
  exists m e,
    subtask = Z.of_nat (S m) /\ (m < n)%nat /\
    result.1 = Raise e /\ exit_status (Raise e : outcome unit) = 1 /\
    call_seq result.2
    = (STATUS, None)
      :: flat_map (fun i => [(GET_TEST, Some (PInt i)); (SUBMIT, Some (PInt i))]) (range1 m)
      ++ [(GET_TEST, Some (PInt subtask))] /\
    List.length (solver_inputs result.2) = m /\
    List.length (verdict_lines result.2) = m.
Proof.
  intros Hsend Hstatus Hn result Hin Href.
  set (sent := announce self STATUS
               ++ [EvRequest STATUS (status_request self arguments) (Some status_response)]).
  pose proof (sent_steps_ok self arguments status_response Hstatus) as Hsent. fold sent in Hsent.
  destruct (announce_observed self STATUS) as (Hc0 & Hs0 & Hv0).
  destruct (handleRun_cases rt w self arguments past status_response n Hsend Hstatus Hn)
    as [(rest & Hvisits & Hrun)|(m & rest & e & tail & Hlt & Hvisits & Hatt & Hrun)];
    fold sent in Hrun; subst result; rewrite Hrun in *; cbn [fst snd] in *.
  - exfalso. eapply steps_ok_not_refused; [|exact Hin|exact Href].
    apply Forall_app. split; [exact Hsent|]. exact (visits_steps_ok _ _ _ _ _ Hvisits).
  - apply elem_of_app in Hin as [Hin|Hin];
      [by destruct (steps_ok_not_refused _ _ _ _ Hsent Hin Href)|].
    apply elem_of_app in Hin as [Hin|Hin];
      [by destruct (steps_ok_not_refused _ _ _ _ (visits_steps_ok _ _ _ _ _ Hvisits) Hin Href)|].
    destruct (attempt_refused_fetch _ _ _ _ _ Hatt Hin Href) as (-> & Hexit & Hc & Hs & Hv).
    destruct (visits_observed _ _ _ _ _ Hvisits) as (Hcr & Hsr & Hvr).
    exists m, e. repeat (split; [done|]).
    unfold sent. rewrite !call_seq_app, !solver_inputs_app, !verdict_lines_app.
    rewrite Hc0, Hs0, Hv0, Hc, Hs, Hv, Hcr, !length_app, Hsr, Hvr.
    unfold range1. rewrite length_fmap, length_seq.
    split; [|split; cbn; lia].
    unfold call_seq. cbn. by rewrite lookup_singleton_ne by done.
Qed.

(** X10. When the call of the solver raises on the first subtask
    ([CalledProcessError] for a non-zero exit status, [FileNotFoundError] or
    [PermissionError] when the solver cannot be started), the run ends on
    this exception after the input has been fetched: nothing is submitted
    and no later subtask is tried. *)
Theorem handleRun_solver_failure past status_response n input_response e :
  let sent := announce self STATUS
              ++ [EvRequest STATUS (status_request self arguments) (Some status_response)] in
  let asked := announce self GET_TEST
               ++ [EvRequest GET_TEST (getTest_request self arguments 1)
                     (Some input_response)] in
  http_send w (past ++ announce self STATUS) (status_request self arguments)
    = Some status_response ->
  status_code status_response = 200 ->
  number_of_subtasks status_response = Ok (S n) ->
  http_send w (past ++ sent ++ announce self GET_TEST) (getTest_request self arguments 1)
    = Some input_response ->
  status_code input_response = 200 ->
  check_output w (past ++ sent ++ asked) (sol_args arguments)
    (encode (resp_text input_response)) = Raise e ->
  handleRun rt w self arguments past
  = (Raise e,
     sent ++ asked
     ++ [EvSubprocess (sol_args arguments) (encode (resp_text input_response)) (Raise e)]).
Proof.
  intros sent asked Hsend Hstatus Hn Hinput Hcode Hsolver.
  assert (Hsub :
    run_subtask rt w self arguments (arg_task arguments) 1 ((past ++ sent) ++ [])
    = (Raise e,
       asked ++ [EvSubprocess (sol_args arguments) (encode (resp_text input_response))
                   (Raise e)])).
  { unfold run_subtask. rewrite app_nil_r.
    erewrite bind_ok
      by (unfold getTest; apply callApi_ok; [rewrite <- app_assoc; exact Hinput|exact Hcode]).
    fold (getTest_request self arguments 1). fold asked.
    rewrite (bind_raise _ _ _ e
               [EvSubprocess (sol_args arguments) (encode (resp_text input_response)) (Raise e)])
      by (unfold run_solver; cbn zeta; rewrite <- app_assoc; by rewrite Hsolver).
    reflexivity. }
  unfold handleRun. cbn zeta.
  erewrite bind_ok by (unfold getStatus; apply callApi_ok; [exact Hsend|exact Hstatus]).
  fold (status_request self arguments). fold sent.
  erewrite bind_ok by (unfold lift; rewrite Hn; reflexivity).
  unfold range1. cbn [seq fmap list_fmap for_each].
  erewrite bind_raise by exact Hsub.
  cbn [fst snd app]. reflexivity.
Qed.

End EarlyEnd.

(** Variants of the session: the answer to the status call, the answer to
    the get-test call of each subtask and the behaviour of the solver are
    chosen. *)
Definition world_of (status_answer : Response) (input_answer : Z -> Response)
    (solver : string -> outcome string) : World :=
  {| http_send := fun _ request =>
       let url := req_url request in
       if String.eqb url (default_api_url +:+ "tasks/status") then Some status_answer
       else if String.eqb url (default_api_url +:+ "tasks/input") then
         match req_params request !! "subtask" with
         | Some (PInt subtask) => Some (input_answer subtask)
         | _ => None
         end
       else Session.server Session.input_response request;
     check_output := fun _ _ input => solver input;
     home := home Session.w;
     token_file := token_file Session.w;
     clock := clock Session.w |}.

Definition empty_status : Response :=
  mkResponse 200 Session.json_headers ""
    (Some (JObj (<["name" := JStr "Prázdná úloha"]>
                (<["points" := JNum 0]>
                (<["max_points" := JNum 0]>
                {[ "subtasks" := JArr [] ]}))))).

Lemma handleRun_without_subtasks_witness :
  handleRun Session.rt
    (world_of empty_status (fun _ => Session.input_response) (fun _ => Ok "6"))
    Session.service Session.run_arguments []
  = (Ok tt,
     [EvRequest STATUS (status_request Session.service Session.run_arguments)
        (Some empty_status)]).
Proof.
  apply (handleRun_without_subtasks Session.rt
           (world_of empty_status (fun _ => Session.input_response) (fun _ => Ok "6"))
           Session.service Session.run_arguments [] empty_status);
    reflexivity.
Defined.

(** The input of the second subtask is refused. *)
Definition second_refused (subtask : Z) : Response :=
  if subtask =? 2 then refusal else Session.input_response.

Lemma handleRun_stops_when_refused_witness :
  let w := world_of Session.status_response second_refused (fun _ => Ok "6") in
  let result := handleRun Session.rt w Session.service Session.run_arguments [] in
  exists m e,
    2 = Z.of_nat (S m) /\ (m < 3)%nat /\
    result.1 = Raise e /\ exit_status (Raise e : outcome unit) = 1 /\
    call_seq result.2
    = (STATUS, None)
      :: flat_map (fun i => [(GET_TEST, Some (PInt i)); (SUBMIT, Some (PInt i))]) (range1 m)
      ++ [(GET_TEST, Some (PInt 2))] /\
    List.length (solver_inputs result.2) = m /\
    List.length (verdict_lines result.2) = m.
Proof.
  intros w.
  apply (handleRun_stops_when_refused Session.rt w Session.service Session.run_arguments []
           Session.status_response 3 2 (Some refusal)).
  - reflexivity.
  - reflexivity.
  - reflexivity.
  - do 5 apply list_elem_of_further. apply list_elem_of_here.
  - intros response [= <-]. cbn. lia.
Defined.

(** A solver that cannot be started. *)
Lemma handleRun_solver_failure_witness :
  handleRun Session.rt
    (world_of Session.status_response (fun _ => Session.input_response)
       (fun _ => Raise FileNotFoundError))
    Session.service Session.run_arguments []
  = (Raise FileNotFoundError,
     [EvRequest STATUS (status_request Session.service Session.run_arguments)
        (Some Session.status_response);
      EvRequest GET_TEST (getTest_request Session.service Session.run_arguments 1)
        (Some Session.input_response);
      EvSubprocess ["python3"; "solver.py"] "3 1 2 3" (Raise FileNotFoundError)]).
Proof.
  apply (handleRun_solver_failure Session.rt
           (world_of Session.status_response (fun _ => Session.input_response)
              (fun _ => Raise FileNotFoundError))
           Session.service Session.run_arguments [] Session.status_response 2
           Session.input_response FileNotFoundError);
    reflexivity.
Defined.

(** ** More on the time left *)

(** X11. How [formatTime] fails.  A subtask without [input_generated]
    raises [KeyError], as does a generated one without [input_valid_until];
    an expiry that is not a string raises [AttributeError], one that is not
    in ISO format [ValueError], one without UTC offset [TypeError]; a subtask
    that is not a dictionary raises [TypeError].  The expiry of a subtask that
    is not generated is never looked at. *)
Theorem formatTime_failures rt now (o : gmap string json) :
  (o !! "input_generated" = None ->
     formatTime rt now (JObj o) = Raise (KeyError "input_generated")) /\
  (forall generated,
     o !! "input_generated" = Some generated -> truthy generated = true ->
     (o !! "input_valid_until" = None ->
        formatTime rt now (JObj o) = Raise (KeyError "input_valid_until")) /\
     (forall v,
        o !! "input_valid_until" = Some v -> (forall s, v <> JStr s) ->
        formatTime rt now (JObj o) = Raise AttributeError) /\
     (forall s,
        o !! "input_valid_until" = Some (JStr s) -> startswith s "9999" = false ->
        (fromisoformat rt s = Malformed -> formatTime rt now (JObj o) = Raise ValueError) /\
        (forall t, fromisoformat rt s = Naive t ->
                   formatTime rt now (JObj o) = Raise TypeError))) /\
  (forall generated o',
     o !! "input_generated" = Some generated -> truthy generated = false ->
     o' !! "input_generated" = Some generated ->
     formatTime rt now (JObj o') = formatTime rt now (JObj o)) /\
  (forall v, (forall o', v <> JObj o') -> formatTime rt now v = Raise TypeError).
Proof.
  split; [|split; [|split]].
  - intros Hg. unfold formatTime. cbn. by rewrite Hg.
  - intros generated Hg Ht. split; [|split].
    + intros Hv. unfold formatTime. cbn. rewrite Hg. cbn. by rewrite Ht, Hv.
    + intros v Hv Hstr. unfold formatTime. cbn. rewrite Hg. cbn. rewrite Ht, Hv. cbn.
      destruct v as [| | |s| |]; try reflexivity. by destruct (Hstr s).
    + intros s Hv Hs. rewrite (formatTime_generated rt now o generated s Hg Ht Hv), Hs.
      split; [by intros ->|]. by intros t ->.
  - intros generated o' Hg Ht Hg'.
    by rewrite (formatTime_not_generated rt now o generated Hg Ht),
               (formatTime_not_generated rt now o' generated Hg' Ht).
  - intros v Hobj. destruct v as [| | | | |o']; try reflexivity. by destruct (Hobj o').
Qed.

Lemma components_small total_seconds :
  0 <= total_seconds < of_int 60 ->
  components total_seconds = (0, 0, 0, total_seconds).
Proof.
  unfold of_int, million. intros Hrange. unfold components, divmod, million.
  rewrite (Z.div_small total_seconds (60 * 60 * 24 * 1000000)) by lia.
  rewrite (Z.mod_small total_seconds (60 * 60 * 24 * 1000000)) by lia.
  rewrite (Z.div_small total_seconds (60 * 60 * 1000000)) by lia.
  rewrite (Z.mod_small total_seconds (60 * 60 * 1000000)) by lia.
  rewrite (Z.div_small total_seconds (60 * 1000000)) by lia.
  rewrite (Z.mod_small total_seconds (60 * 1000000)) by lia.
  reflexivity.
Qed.

Lemma format_delta_small total_seconds :
  0 <= total_seconds < of_int 60 ->
  format_delta total_seconds
  = join_parts (keep_nonempty [czechTime total_seconds "sekunda" "sekundy" "sekund"]).
Proof.
  intros Hrange. unfold format_delta, component_strs.
  rewrite (components_small total_seconds Hrange). reflexivity.
Qed.

(** X12. An input that expires within the next half second (the half second
    included) has no component that rounds to a non-zero value: the time
    left is the empty string. *)
Theorem format_delta_under_half_second total_seconds :
  0 <= total_seconds <= 500000 -> format_delta total_seconds = "".
Proof.
  intros Hrange. rewrite format_delta_small by (unfold of_int, million; lia).
  assert (Hround : round total_seconds = 0).
  { unfold round, million. rewrite Z.div_small, Z.mod_small by lia.
    destruct (Z.ltb_spec total_seconds 500000); [reflexivity|].
    destruct (Z.ltb_spec 500000 total_seconds); [lia|reflexivity]. }
  by rewrite (proj2 (czechTime_empty_iff total_seconds "sekunda" "sekundy" "sekund") Hround).
Qed.

(** X13. The seconds are rounded after the minutes were split off, and
    nothing is carried: from 59.5 seconds up to a minute the time left reads
    [60 sekund]. *)
Theorem format_delta_sixty_seconds total_seconds :
  of_int 59 + 500000 <= total_seconds < of_int 60 ->
  format_delta total_seconds = "60 sekund".
Proof.
  unfold of_int, million. intros Hrange.
  rewrite format_delta_small by (unfold of_int, million; lia).
  assert (Hround : round total_seconds = 60).
  { unfold round, million.
    assert (Hq : total_seconds / 1000000 = 59)
      by (symmetry; apply (Z.div_unique total_seconds 1000000 59 (total_seconds - 59000000)); lia).
    assert (Hr : total_seconds mod 1000000 = total_seconds - 59000000)
      by (symmetry; apply (Z.mod_unique total_seconds 1000000 59 (total_seconds - 59000000)); lia).
    rewrite Hq, Hr.
    destruct (Z.ltb_spec (total_seconds - 59000000) 500000); [lia|].
    destruct (Z.ltb_spec 500000 (total_seconds - 59000000)); reflexivity. }
  unfold czechTime. rewrite Hround. reflexivity.
Qed.

Lemma round_nonneg x : 0 <= x -> 0 <= round x.
Proof.
  intros Hx. unfold round. unfold million. cbv zeta.
  assert (0 <= x / 1000000) by (apply Z.div_pos; lia).
  destruct (_ <? _); [lia|]. destruct (_ <? _); [lia|]. destruct (Z.even _); lia.
Qed.

(** X14. Whatever the sign of the time left, hours stay within 0..23,
    minutes within 0..59 and seconds from 0 up to, not including, 60; the
    number of days is negative exactly when the time left is.  So an input
    that has not expired is never shown with a negative component. *)
Theorem components_ranges total_seconds :
  let '(days, hours, minutes, seconds) := components total_seconds in
  0 <= hours < 24 /\ 0 <= minutes < 60 /\ 0 <= seconds < of_int 60 /\
  (days < 0 <-> total_seconds < 0) /\
  (0 <= total_seconds -> no_negative_component total_seconds).
Proof.
  unfold no_negative_component, component_table.
  unfold components, divmod, of_int, million.
  set (day := 60 * 60 * 24 * 1000000).
  set (hour := 60 * 60 * 1000000).
  set (minute := 60 * 1000000).
  pose proof (Z.div_mod total_seconds day ltac:(subst day; lia)) as Hd.
  pose proof (Z.mod_pos_bound total_seconds day ltac:(subst day; lia)) as Hdb.
  set (r1 := total_seconds mod day) in *.
  pose proof (Z.mod_pos_bound r1 hour ltac:(subst hour; lia)) as Hhb.
  set (r2 := r1 mod hour) in *.
  pose proof (Z.mod_pos_bound r2 minute ltac:(subst minute; lia)) as Hmb.
  set (r3 := r2 mod minute) in *.
  assert (Hh : 0 <= r1 / hour < 24)
    by (split; [apply Z.div_pos|apply Z.div_lt_upper_bound]; subst day hour; lia).
  assert (Hm : 0 <= r2 / minute < 60)
    by (split; [apply Z.div_pos|apply Z.div_lt_upper_bound]; subst hour minute; lia).
  assert (Hs : 0 <= r3 < 60 * 1000000) by (subst minute; lia).
  assert (Hdays : total_seconds / day < 0 <-> total_seconds < 0).
  { split; intros Hneg.
    - destruct (Z.lt_ge_cases total_seconds 0) as [|Hpos]; [done|].
      pose proof (Z.div_pos total_seconds day Hpos ltac:(subst day; lia)). lia.
    - apply Z.div_lt_upper_bound; subst day; lia. }
  repeat (split; [done|]).
  intros Hpos.
  assert (0 <= total_seconds / day) by (apply Z.div_pos; subst day; lia).
  repeat constructor; cbn [fst]; apply round_nonneg; lia.
Qed.

(** ** Verbose mode *)

(** X15. With [-v] the address is printed before the request is sent,
    whatever comes of the request; without it [callApi] prints nothing
    before the request, and nothing at all when the call succeeds. *)
Theorem callApi_announces_when_verbose rt w self operation eh ep data past :
  let request := request_of self operation eh ep data in
  let result := callApi rt w self operation eh ep data past in
  (verbose self = true ->
     exists rest,
       result.2 = EvPrint ("Posílám požadavek na: " +:+ req_url request)
                  :: EvRequest operation request
                       (http_send w (past ++ [EvPrint ("Posílám požadavek na: "
                                                       +:+ req_url request)]) request)
                  :: rest) /\
  (verbose self = false ->
     exists rest,
       result.2 = EvRequest operation request (http_send w past request) :: rest /\
       (forall response, result.1 = Ok response -> rest = [])).
Proof.
  cbn zeta. rewrite callApi_run. cbn zeta. unfold announce. split; intros ->.
  - cbn [app req_url request_of].
    destruct (http_send w _ _) as [response|]; [|by eexists].
    destruct (bool_decide _); [|by eexists].
    destruct (reject _ _ _ _). by eexists.
  - cbn [app]. rewrite app_nil_r.
    destruct (http_send w past _) as [response|]; [|by eexists].
    destruct (bool_decide _); [|by eexists].
    pose proof (reject_raises rt (A := Response) self response
      (past ++ [EvRequest operation (request_of self operation eh ep data) (Some response)]))
      as (e & He & _).
    destruct (reject _ _ _ _) as [r es]. cbn [fst snd] in *. subst r.
    eexists. split; [reflexivity|]. intros ? [=].
Qed.

Lemma format_delta_under_half_second_witness : format_delta 300000 = "".
Proof. apply format_delta_under_half_second. lia. Defined.

Lemma format_delta_sixty_seconds_witness : format_delta 59700000 = "60 sekund".
Proof. apply format_delta_sixty_seconds. unfold of_int, million. lia. Defined.

(** ** The status table *)

Section TableFacts.

Context (rt : Runtime) (w : World).

(** The first two lines of the table. *)
Definition title_lines (name points max_points : json) : list string :=
  [ "Název úlohy: " +:+ py_str rt name;
    "Získané body: " +:+ py_str rt points +:+ "/" +:+ py_str rt max_points ].

(** Rows that each print a line print these lines one after the other. *)
Lemma rows_run rows :
  (forall row past', row ∈ rows ->
     exists line, printTableRow rt w row past' = (Ok tt, [EvPrint line])) ->
  forall past, exists row_lines,
    for_each rows (printTableRow rt w) past = (Ok tt, EvPrint <$> row_lines) /\
    Forall2 (fun row line =>
               exists past', printTableRow rt w row past' = (Ok tt, [EvPrint line]))
            rows row_lines.
Proof.
  induction rows as [|row rows IH]; intros Hrow past.
  - exists []. split; [reflexivity|constructor].
  - destruct (Hrow row past ltac:(left)) as [line Hline].
    destruct (IH ltac:(intros ???; apply Hrow; by right) (past ++ [EvPrint line]))
      as (row_lines & Hrest & Hall).
    exists (line :: row_lines). split.
    + cbn [for_each]. erewrite bind_ok by exact Hline. by rewrite Hrest.
    + constructor; [by exists past|exact Hall].
Qed.

(** X16. The row of a subtask.  With [points], [max_points], an [id] that
    can be padded and a time left that can be formatted, the row is one line
    of four columns, the identifier padded to 5, the time left to 32 and the
    points to 8 characters; the last column is the verdict, and it is empty,
    not an error, for a subtask that has none. *)
Theorem printTableRow_line (o : gmap string json) points max_points id id_col time past :
  o !! "points" = Some points ->
  o !! "max_points" = Some max_points ->
  o !! "id" = Some id ->
  format_left 5 id = Ok id_col ->
  formatTime rt (clock w past) (JObj o) = Ok time ->
  printTableRow rt w (JObj o) past
  = (Ok tt,
     [EvPrint (id_col +:+ "| " +:+ ljust 32 time +:+ "| "
               +:+ ljust 8 (py_str rt points +:+ "/" +:+ py_str rt max_points) +:+ "| "
               +:+ match o !! "verdict" with
                   | Some verdict => py_str rt verdict
                   | None => ""
                   end)]).
Proof.
  intros Hp Hmp Hid Hcol Htime. unfold printTableRow, formatTime_now.
  run_M. cbn [getitem getitem_or_empty]. rewrite Hp, Hmp, Hid, Hcol. cbn [app].
  rewrite !app_nil_r, Htime. cbn [app].
  by destruct (o !! "verdict").
Qed.

(** X17. The table as a whole: the two title lines, the column header and
    the rule, then one line for each subtask, in the order of the list. *)
Theorem printTableStatus_rows (o : gmap string json) name points max_points rows past :
  o !! "name" = Some name ->
  o !! "points" = Some points ->
  o !! "max_points" = Some max_points ->
  o !! "subtasks" = Some (JArr rows) ->
  (forall row past', row ∈ rows ->
     exists line, printTableRow rt w row past' = (Ok tt, [EvPrint line])) ->
  exists row_lines,
    printTableStatus rt w (JObj o) past
    = (Ok tt, EvPrint <$> (title_lines name points max_points
                           ++ [table_header; dashes] ++ row_lines)) /\
    Forall2 (fun row line =>
               exists past', printTableRow rt w row past' = (Ok tt, [EvPrint line]))
            rows row_lines.
Proof.
  intros Hname Hp Hmp Hrows Hrow.
  pose proof (rows_run rows Hrow) as Hloop.
  clear Hrow.
  set (header := EvPrint <$> (title_lines name points max_points ++ [table_header; dashes])).
  destruct (Hloop (past ++ header)) as (row_lines & Hrun & Hall).
  exists row_lines. split; [|exact Hall].
  unfold printTableStatus. run_M. cbn [getitem]. rewrite Hname, Hp, Hmp, Hrows.
  cbn [iterate app]. rewrite !app_nil_r, <- !app_assoc. cbn [app].
  change (past ++ _) with (past ++ header). rewrite Hrun.
  rewrite fmap_app. reflexivity.
Qed.

(** X18. What the table does with data it cannot show.  Without [name]
    nothing is printed; without [subtasks] the four header lines are printed
    before the [KeyError]; and when the row of a subtask fails, the rows
    before it have been printed and the rows after it are not. *)
Theorem printTableStatus_failures (o : gmap string json) past :
  (o !! "name" = None ->
     printTableStatus rt w (JObj o) past = (Raise (KeyError "name"), [])) /\
  (forall name points max_points,
     o !! "name" = Some name -> o !! "points" = Some points ->
     o !! "max_points" = Some max_points ->
     (o !! "subtasks" = None ->
        printTableStatus rt w (JObj o) past
        = (Raise (KeyError "subtasks"),
           EvPrint <$> (title_lines name points max_points ++ [table_header; dashes]))) /\
     (forall before bad after e,
        o !! "subtasks" = Some (JArr (before ++ bad :: after)) ->
        (forall row past', row ∈ before ->
           exists line, printTableRow rt w row past' = (Ok tt, [EvPrint line])) ->
        (forall past', printTableRow rt w bad past' = (Raise e, [])) ->
        exists row_lines,
          List.length row_lines = List.length before /\
          printTableStatus rt w (JObj o) past
          = (Raise e,
             EvPrint <$> (title_lines name points max_points
                          ++ [table_header; dashes] ++ row_lines)))).
Proof.
  split.
  - intros Hname. unfold printTableStatus. run_M. cbn [getitem]. by rewrite Hname.
  - intros name points max_points Hname Hp Hmp. split.
    + intros Hrows. unfold printTableStatus. run_M. cbn [getitem].
      rewrite Hname, Hp, Hmp, Hrows. reflexivity.
    + intros before bad after e Hrows Hbefore Hbad.
      pose proof (rows_run before Hbefore) as Hloop.
      set (header := EvPrint <$> (title_lines name points max_points
                                  ++ [table_header; dashes])).
      destruct (Hloop (past ++ header)) as (row_lines & Hrun & Hall).
      exists row_lines. split; [symmetry; exact (Forall2_length _ _ _ Hall)|].
      unfold printTableStatus. run_M. cbn [getitem]. rewrite Hname, Hp, Hmp, Hrows.
      cbn [iterate app]. rewrite !app_nil_r, <- !app_assoc. cbn [app].
      change (past ++ _) with (past ++ header).
      rewrite (for_each_app before (bad :: after) _ _ _ Hrun).
      cbn [for_each]. erewrite bind_raise by apply Hbad.
      cbn [fst snd]. rewrite app_nil_r, fmap_app. reflexivity.
Qed.

End TableFacts.

Lemma printTableRow_line_witness :
  printTableRow Session.rt Session.w (Session.subtask_record 1) []
  = (Ok tt, [EvPrint "1    | Nevygenerováno                  | 0/2     | "]).
Proof.
  exact (printTableRow_line Session.rt Session.w
           (<["id" := JNum 1]>
            (<["input_generated" := JBool false]>
            (<["points" := JNum 0]>
            {[ "max_points" := JNum 2 ]})))
           (JNum 0) (JNum 2) (JNum 1) "1    " "Nevygenerováno" []
           eq_refl eq_refl eq_refl eq_refl eq_refl).
Defined.

Lemma printTableStatus_rows_witness :
  exists row_lines,
    printTableStatus Session.rt Session.w Session.status_body []
    = (Ok tt, EvPrint <$> (title_lines Session.rt (JStr "Sedlák a calounictví") (JNum 0) (JNum 6)
                           ++ [table_header; dashes] ++ row_lines)) /\
    Forall2 (fun row line =>
               exists past',
                 printTableRow Session.rt Session.w row past' = (Ok tt, [EvPrint line]))
            [Session.subtask_record 1; Session.subtask_record 2; Session.subtask_record 3]
            row_lines.
Proof.
  apply (printTableStatus_rows Session.rt Session.w
           (<["name" := JStr "Sedlák a calounictví"]>
            (<["points" := JNum 0]>
            (<["max_points" := JNum 6]>
            {[ "subtasks" := JArr [Session.subtask_record 1; Session.subtask_record 2;
                                   Session.subtask_record 3] ]})))
           (JStr "Sedlák a calounictví") (JNum 0) (JNum 6)
           [Session.subtask_record 1; Session.subtask_record 2; Session.subtask_record 3] []);
    try reflexivity.
  intros row past' Hin.
  repeat (apply elem_of_cons in Hin as [->|Hin]; [eexists; reflexivity|]).
  inversion Hin.
Defined.

(** ** The translation of the parser's messages *)

(** [s.replace(old, new)] for a pattern that is not empty: the occurrences
    are replaced from the left, one not overlapping the other.  [skip]
    counts the characters of an occurrence that are still to be passed. *)
Fixpoint replace_from (old new : string) (skip : nat) (s : string) : string :=
  match s with
  | EmptyString => EmptyString
  | String c s' =>
      match skip with
      | S k => replace_from old new k s'
      | O =>
          if String.prefix old s
          then new +:+ replace_from old new (String.length old - 1) s'
          else String c (replace_from old new 0 s')
      end
  end.

(** [s.replace(old, new)]: an empty pattern matches before every character
    and at the end. *)
Definition replace (old new : string) (s : string) : string :=
  if String.eqb old "" then
    if String.eqb s "" then new else new +:+ join new (chars s) +:+ new
  else replace_from old new 0 s.

(** [translateToCzech] *)
Definition translateToCzech (message : string) : string :=
  let message := replace "usage" "použití" message in
  let message := replace "show this help message and exit"
                         "zobraz tuto nápovědu a ukonči program" message in
  let message := replace "error:" "chyba:" message in
  let message := replace "the following arguments are required:"
                         "tyto následující argumenty jsou vyžadovány:" message in
  let message := replace "optional arguments" "volitelné argumenty" message in
  let message := replace "positional arguments" "poziční argumenty" message in
  let message := replace "invalid choice: %(value)r (choose from %(choices)s)"
                         "neplatná volba: %(value)r (zvolte z %(choices)s)" message in
  message.

(** The phrases [translateToCzech] looks for. *)
Definition phrases : list string :=
  [ "usage"; "show this help message and exit"; "error:";
    "the following arguments are required:"; "optional arguments";
    "positional arguments"; "invalid choice: %(value)r (choose from %(choices)s)" ].

(** [old in s] *)
Fixpoint occurs (old s : string) : bool :=
  match s with
  | EmptyString => String.prefix old EmptyString
  | String c s' => String.prefix old s || occurs old s'
  end.

Example replace_overlap : replace "aa" "b" "aaa" = "ba".
Proof. reflexivity. Qed.

Example replace_empty_pattern : replace "" "-" "abc" = "-a-b-c-".
Proof. reflexivity. Qed.

Example translate_usage :
  translateToCzech "usage: ksp-klient.py [-h] error: the following arguments are required: task"
  = "použití: ksp-klient.py [-h] chyba: tyto následující argumenty jsou vyžadovány: task".
Proof. reflexivity. Qed.

Lemma replace_absent old new s :
  old <> "" -> occurs old s = false -> replace old new s = s.
Proof.
  intros Hold Hocc. unfold replace.
  destruct (String.eqb_spec old "") as [->|_]; [by destruct Hold|].
  induction s as [|c s IH]; [reflexivity|].
  cbn [occurs] in Hocc. apply orb_false_iff in Hocc as [Hhere Hlater].
  cbn [replace_from]. rewrite Hhere. by rewrite (IH Hlater).
Qed.

(** X19. A message in which none of the seven English phrases occurs is not
    changed by the translation. *)
Theorem translateToCzech_other_text message :
  Forall (fun phrase => occurs phrase message = false) phrases ->
  translateToCzech message = message.
Proof.
  intros Hall. unfold phrases in Hall.
  repeat match type of Hall with
         | Forall _ (_ :: _) => apply Forall_cons in Hall as [? Hall]
         end.
  cbn beta in *. unfold translateToCzech. cbn zeta.
  repeat match goal with
         | Hocc : occurs ?old message = false |- context [replace ?old ?new message] =>
             rewrite (replace_absent old new message ltac:(discriminate) Hocc)
         end.
  reflexivity.
Qed.

Lemma translateToCzech_other_text_witness :
  translateToCzech "Zobrazit debug log" = "Zobrazit debug log".
Proof.
  apply translateToCzech_other_text.
  repeat (constructor; [reflexivity|]). constructor.
Defined.

(** ** Commands that print the answer *)

Section AnswerFacts.

Context (rt : Runtime) (w : World) (self : KSPApiService) (arguments : Namespace).

(** The requests of [list] and of [submit]. *)
Definition list_request : Request :=
  request_of self LIST no_headers
    (if training_ground self then <["set" := PStr "cviciste"]> ∅ else ∅) no_data.

Definition submit_command_request : Request :=
  request_of self SUBMIT {[ "Content-Type" := "text/plain" ]}
    (<["task" := PStr (arg_task arguments)]> {[ "subtask" := PInt (arg_subtask arguments) ]})
    no_data.

(** X20. [list] and [submit] print what the server answered and nothing
    else of their own: after the one request, a 200 answer with a JSON body
    is shown as [json.dumps] renders it, and the command ends normally. *)
Theorem list_and_submit_print_answer past response body :
  status_code response = 200 ->
  resp_json response = Some body ->
  (http_send w (past ++ announce self LIST) list_request = Some response ->
     handleList rt w self arguments past
     = (Ok tt, announce self LIST
               ++ [EvRequest LIST list_request (Some response);
                   EvPrint (json_dumps rt body)])) /\
  (http_send w (past ++ announce self SUBMIT) submit_command_request = Some response ->
     handleSubmit rt w self arguments past
     = (Ok tt, announce self SUBMIT
               ++ [EvRequest SUBMIT submit_command_request (Some response);
                   EvPrint (json_dumps rt body)])).
Proof.
  intros Hstatus Hjson. split; intros Hsend.
  - unfold handleList.
    erewrite bind_ok by (unfold getList; apply callApi_ok; [exact Hsend|exact Hstatus]).
    erewrite bind_ok by (unfold lift, response_json; rewrite Hjson; reflexivity).
    cbn. fold list_request. by rewrite <- app_assoc.
  - unfold handleSubmit. cbn zeta.
    erewrite bind_ok by (unfold submit; apply callApi_ok; [exact Hsend|exact Hstatus]).
    erewrite bind_ok by (unfold lift, response_json; rewrite Hjson; reflexivity).
    cbn. fold submit_command_request. by rewrite <- app_assoc.
Qed.

(** X21. A 200 answer whose body is not JSON is not handled: [list],
    [status], [submit] and [run] end on [JSONDecodeError] right after their
    first request, having printed nothing about it. *)
Theorem commands_need_json past response :
  status_code response = 200 ->
  resp_json response = None ->
  (http_send w (past ++ announce self LIST) list_request = Some response ->
     handleList rt w self arguments past
     = (Raise JSONDecodeError,
        announce self LIST ++ [EvRequest LIST list_request (Some response)])) /\
  (http_send w (past ++ announce self STATUS) (status_request self arguments) = Some response ->
     handleStatus rt w self arguments past
     = (Raise JSONDecodeError,
        announce self STATUS
        ++ [EvRequest STATUS (status_request self arguments) (Some response)]) /\
     handleRun rt w self arguments past
     = (Raise JSONDecodeError,
        announce self STATUS
        ++ [EvRequest STATUS (status_request self arguments) (Some response)])) /\
  (http_send w (past ++ announce self SUBMIT) submit_command_request = Some response ->
     handleSubmit rt w self arguments past
     = (Raise JSONDecodeError,
        announce self SUBMIT ++ [EvRequest SUBMIT submit_command_request (Some response)])).
Proof.
  intros Hstatus Hjson.
  assert (Hdecode : forall past', lift (response_json response) past'
                                  = (Raise JSONDecodeError, []))
    by (intros past'; unfold lift, response_json; by rewrite Hjson).
  split; [|split]; intros Hsend.
  - unfold handleList.
    erewrite bind_ok by (unfold getList; apply callApi_ok; [exact Hsend|exact Hstatus]).
    erewrite bind_raise by apply Hdecode.
    cbn [fst snd]. fold list_request. by rewrite app_nil_r.
  - split.
    + unfold handleStatus.
      erewrite bind_ok by (unfold getStatus; apply callApi_ok; [exact Hsend|exact Hstatus]).
      erewrite bind_raise by apply Hdecode.
      cbn [fst snd]. by rewrite app_nil_r.
    + unfold handleRun. cbn zeta.
      erewrite bind_ok by (unfold getStatus; apply callApi_ok; [exact Hsend|exact Hstatus]).
      erewrite bind_raise
        by (unfold lift, number_of_subtasks, response_json; rewrite Hjson; reflexivity).
      cbn [fst snd]. by rewrite app_nil_r.
  - unfold handleSubmit. cbn zeta.
    erewrite bind_ok by (unfold submit; apply callApi_ok; [exact Hsend|exact Hstatus]).
    erewrite bind_raise by apply Hdecode.
    cbn [fst snd]. fold submit_command_request. by rewrite app_nil_r.
Qed.

End AnswerFacts.

Definition submit_arguments : Namespace :=
  {| arg_verbose := false; arg_cviciste := false; arg_api_url := None;
     operation_name := Some "submit"; arg_task := "32-Z4-1"; arg_subtask := 1;
     arg_file := "6"; sol_args := [] |}.

Lemma list_and_submit_print_answer_witness :
  handleSubmit Session.rt Session.w Session.service submit_arguments []
  = (Ok tt, [EvRequest SUBMIT (submit_command_request Session.service submit_arguments)
               (Some Session.verdict_response);
             EvPrint "{}"]).
Proof.
  refine (proj2 (list_and_submit_print_answer Session.rt Session.w Session.service
                   submit_arguments [] Session.verdict_response Session.verdict_body _ _) _);
    reflexivity.
Defined.

(** A server that answers the status call with an HTML page. *)
Definition html_page : Response :=
  mkResponse 200 {[ "content-type" := "text/html" ]} "<html>KSP</html>" None.

Lemma commands_need_json_witness :
  handleRun Session.rt
    (world_of html_page (fun _ => Session.input_response) (fun _ => Ok "6"))
    Session.service Session.run_arguments []
  = (Raise JSONDecodeError,
     [EvRequest STATUS (status_request Session.service Session.run_arguments)
        (Some html_page)]).
Proof.
  refine (proj2 (proj1 (proj2 (commands_need_json Session.rt
                   (world_of html_page (fun _ => Session.input_response) (fun _ => Ok "6"))
                   Session.service Session.run_arguments [] html_page _ _)) _));
    reflexivity.
Defined.

(** ** Counting and inspecting the requests of a command *)

(** A computation that sends nothing. *)
Definition silent {A : Type} (m : M A) : Prop := sends_only (fun _ _ => False) m.

Lemma silent_requests {A : Type} (m : M A) past : silent m -> requests (m past).2 = [].
Proof.
  intros Hsilent. specialize (Hsilent past).
  destruct (requests (m past).2) as [|c l]; [reflexivity|].
  by apply Forall_cons in Hsilent as [[] _].
Qed.

Lemma bind_requests {A B : Type} (m : M A) (f : A -> M B) past :
  (forall a, silent (f a)) -> requests ((m ≫= f) past).2 = requests (m past).2.
Proof.
  intros Hsilent. unfold mbind, M_bind.
  destruct (m past) as [[a|e] es]; [|reflexivity].
  pose proof (silent_requests (f a) (past ++ es) (Hsilent a)) as Hf.
  destruct (f a (past ++ es)) as [r es']. cbn [snd] in *.
  by rewrite requests_app, Hf, app_nil_r.
Qed.

Ltac silent_step :=
  first [ solve [unfold silent; auto with sends]
        | simple apply sends_only_for_each; intros ?
        | simple apply sends_only_bind; [|intros ?] ].

Section RequestCount.

Context (rt : Runtime) (w : World) (self : KSPApiService) (arguments : Namespace).

Lemma printTableStatus_silent json_text : silent (printTableStatus rt w json_text).
Proof. unfold silent, printTableStatus, printTableRow. repeat silent_step. Qed.

(** X22. [list], [status], [submit] and [generate] send exactly one request
    each, however it is answered: a failed call is not repeated and no
    command follows it up with a second call. *)
Theorem single_call_commands past :
  List.length (requests (handleList rt w self arguments past).2) = 1%nat /\
  List.length (requests (handleStatus rt w self arguments past).2) = 1%nat /\
  List.length (requests (handleSubmit rt w self arguments past).2) = 1%nat /\
  List.length (requests (handleGenerate rt w self arguments past).2) = 1%nat.
Proof.
  repeat split.
  - unfold handleList. rewrite bind_requests.
    + unfold getList. by rewrite callApi_requests.
    + intros r. unfold silent, printNiceJson. repeat silent_step.
  - unfold handleStatus. rewrite bind_requests.
    + unfold getStatus. by rewrite callApi_requests.
    + intros r. unfold silent. apply sends_only_bind; [apply sends_only_lift|].
      intros j. apply printTableStatus_silent.
  - unfold handleSubmit. cbn zeta. rewrite bind_requests.
    + unfold submit. by rewrite callApi_requests.
    + intros r. unfold silent, printNiceJson. repeat silent_step.
  - unfold handleGenerate. rewrite bind_requests.
    + unfold getTest. by rewrite callApi_requests.
    + intros r. unfold silent. repeat silent_step.
Qed.

(** Whether a request asks for a test input to be generated. *)
Definition asks_to_generate (operation : APIOperation) (request : Request) : Prop :=
  req_params request !! "generate"
  = (if decide (operation = GET_TEST) then Some (PStr "true") else None).

Ltac generate_step :=
  first [ solve [auto with sends]
        | simple apply sends_only_callApi; unfold asks_to_generate;
          cbn [req_params request_of];
          first [rewrite decide_True by reflexivity | rewrite decide_False by discriminate];
          try destruct (training_ground _);
          rewrite ?lookup_insert_ne by done;
          first [apply lookup_singleton_eq | by apply lookup_singleton_ne | apply lookup_empty]
        | simple apply sends_only_for_each; intros ?
        | simple apply sends_only_bind; [|intros ?] ].

(** X23. No command fetches a test input without asking for it to be
    generated: every request to [tasks/input], in [generate] and in [run],
    has [generate=true], and no other request has this parameter. *)
Theorem get_test_always_generates name handler past operation request answer :
  find_operation name (operations rt w) = Some handler ->
  EvRequest operation request answer ∈ (handler self arguments past).2 ->
  req_params request !! "generate"
  = (if decide (operation = GET_TEST) then Some (PStr "true") else None).
Proof.
  intros Hfind Hin%elem_of_requests.
  assert (Hall : sends_only asks_to_generate (handler self arguments)).
  { cbn in Hfind. repeat case_match; simplify_eq.
    - unfold handleList, getList, printNiceJson. repeat generate_step.
    - unfold handleStatus, getStatus, printTableStatus, printTableRow. repeat generate_step.
    - unfold handleSubmit, submit, printNiceJson. repeat generate_step.
    - unfold handleGenerate, getTest. repeat generate_step.
    - unfold handleRun, run_subtask, getStatus, getTest, submit. repeat generate_step. }
  specialize (Hall past). rewrite Forall_forall in Hall. exact (Hall _ Hin).
Qed.

End RequestCount.

Lemma get_test_always_generates_witness :
  req_params (getTest_request Session.service Session.run_arguments 1) !! "generate"
  = (if decide (GET_TEST = GET_TEST) then Some (PStr "true") else None).
Proof.
  apply (get_test_always_generates Session.rt Session.w Session.service Session.run_arguments
           "run" (handleRun Session.rt Session.w) [] GET_TEST
           (getTest_request Session.service Session.run_arguments 1)
           (Some Session.input_response)).
  - reflexivity.
  - apply list_elem_of_further, list_elem_of_here.
Defined.
